(** * Piped: executor registry and piped configuration

    A shallow embedding of two pieces of the Piped agent:

    - [pkg/app/piped/executor/registry.go]: the registry that maps a stage
      kind to the factory of its executor;
    - [pkg/config/piped.go]: the piped configuration ([PipedSpec]), its
      validation, the cloud-provider helpers and the provider decoders.

    Go values are modelled as follows.  A [string] is a [string]; a slice is a
    [list] (the nil slice is [[]]); a pointer to a struct is an [option] of the
    struct ([None] is the nil pointer); a map is an [option] of a [gmap]
    ([None] is the nil map, which can be read but not written); an [error] is
    an [option] of its message ([None] is the nil error).  A call either
    returns or panics ([outcome]); methods with a pointer receiver take the
    receiver's value and give back the value it has afterwards. *)

From Stdlib Require Import ZArith.
From stdpp Require Import base option list strings gmap.

(** ** Go runtime conventions *)

(** The message carried by a non-nil [error]. *)
Definition error : Type := string.

(** The result of a call: it returns a value or it panics. *)
Inductive outcome (A : Type) : Type :=
  | Returned (a : A)
  | Panicked (msg : string).
Arguments Returned {A} a.
Arguments Panicked {A} msg.

(** Runtime panic raised by [m[k] = v] on a nil map. *)
Definition panic_nil_map : string := "assignment to entry in nil map".

(** Runtime panic raised by a field access through a nil pointer, and by a
    call of a nil func value. *)
Definition panic_nil_deref : string :=
  "invalid memory address or nil pointer dereference".

(** ** pkg/app/piped/executor/registry.go *)

Module executor.
Section registry.

(** [model.Stage], [Input] and the [Executor] interface are declared in
    files that are not part of this development.  [stage_String] is what
    the verb [%s] prints for a stage. *)
Context {Stage : Type} `{Countable Stage}.
Context {Input Executor : Type}.
Variable stage_String : Stage → string.

(** [type Factory func(in Input) Executor].  A func value may be nil
    ([None]); the interface value it returns may be nil too. *)
Definition Factory : Type := option (Input → option Executor).

(** [type registry struct { factories map[model.Stage]Factory; mu sync.RWMutex }].
    Every method takes [mu] on entry and releases it through [defer], also
    when it panics, so between two calls the lock is always free and it is
    left out of the state. *)
Record registry : Type := mkRegistry {
  factories : option (gmap Stage Factory)
}.

(** [v, ok := m[k]]: reading a nil map finds nothing. *)
Definition map_index (m : option (gmap Stage Factory)) (k : Stage)
  : option Factory :=
  match m with
  | Some g => g !! k
  | None => None
  end.

(** [func (r *registry) Register(stage model.Stage, f Factory) error] *)
Definition registry_Register (r : registry) (stage : Stage) (f : Factory)
  : registry * outcome (option error) :=
  match map_index (factories r) stage with
  | Some _ =>
      (r, Returned (Some ("executor for " +:+ stage_String stage
                            +:+ " stage has already registered")))
  | None =>
      match factories r with
      | Some g => (mkRegistry (Some (<[stage := f]> g)), Returned None)
      | None => (r, Panicked panic_nil_map)
      end
  end.

(** [func (r *registry) Executor(stage model.Stage, in Input) (Executor, error)] *)
Definition registry_Executor (r : registry) (stage : Stage) (i : Input)
  : registry * outcome (option Executor * option error) :=
  match map_index (factories r) stage with
  | None =>
      (r, Returned (None, Some ("no registered executor for stage "
                                  +:+ stage_String stage)))
  | Some None => (r, Panicked panic_nil_deref)
  | Some (Some f) => (r, Returned (f i, None))
  end.

(** [var defaultRegistry = &registry{}]: the zero value of the struct, whose
    [factories] field is the nil map. *)
Definition defaultRegistry : registry := mkRegistry None.

(** [func DefaultRegistry() Registry] *)
Definition DefaultRegistry : registry := defaultRegistry.

(** [k] is bound to [f] in the registry. *)
Definition bound (r : registry) (k : Stage) (f : Factory) : Prop :=
  map_index (factories r) k = Some f.

(** No factory is bound to [k]. *)
Definition unbound (r : registry) (k : Stage) : Prop :=
  map_index (factories r) k = None.

End registry.
End executor.

(** ** pkg/config/piped.go *)

Module config.

(** [type Duration time.Duration]: a signed 64-bit count of nanoseconds.  The
    code only compares durations and stores constants, so no arithmetic can
    leave the 64-bit range. *)
Definition Duration : Type := Z.

Definition time_Second : Z := 1000000000.
Definition time_Minute : Z := 60 * time_Second.

(** [[]byte], also [json.RawMessage]. *)
Definition bytes : Type := list Byte.byte.

(** [json.Unmarshal(data, &v)] for a target of type [A]: from the value the
    target holds before the call to the value it holds afterwards (a failed
    decoding may have written part of it) and the error. *)
Class Unmarshaler (A : Type) : Type :=
  json_Unmarshal : bytes → A → A * option error.

Record PipedGit : Type := mkPipedGit {
  git_Username : string;
  git_Email : string;
  git_SSHConfigFilePath : string;
  git_Host : string;
  git_HostName : string;
  git_SSHKeyFile : string
}.

Definition PipedGit_ShouldConfigureSSHConfig (g : PipedGit) : bool :=
  bool_decide (git_SSHKeyFile g ≠ "").

Record PipedRepository : Type := mkPipedRepository {
  repo_RepoID : string;
  repo_Remote : string;
  repo_Branch : string
}.

Record HelmChartRepository : Type := mkHelmChartRepository {
  chart_Name : string;
  chart_Address : string;
  chart_Username : string;
  chart_Password : string
}.

Record KubernetesResourceMatcher : Type := mkKubernetesResourceMatcher {
  krm_APIVersion : string;
  krm_Kind : string
}.

Record KubernetesAppStateInformer : Type := mkKubernetesAppStateInformer {
  asi_Namespace : string;
  asi_IncludeResources : list KubernetesResourceMatcher;
  asi_ExcludeResources : list KubernetesResourceMatcher
}.

Record CloudProviderKubernetesConfig : Type := mkCloudProviderKubernetesConfig {
  k8s_MasterURL : string;
  k8s_KubeConfigPath : string;
  k8s_AppStateInformer : KubernetesAppStateInformer
}.

Record CloudProviderTerraformConfig : Type := mkCloudProviderTerraformConfig {
  tf_Vars : list string
}.

Record CloudProviderCloudRunConfig : Type := mkCloudProviderCloudRunConfig {
  run_Project : string;
  run_Region : string;
  run_CredentialsFile : string
}.

Record CloudProviderLambdaConfig : Type := mkCloudProviderLambdaConfig {
  lambda_Region : string
}.

Record AnalysisProviderPrometheusConfig : Type := mkAnalysisProviderPrometheusConfig {
  prom_Address : string;
  prom_UsernameFile : string;
  prom_PasswordFile : string
}.

Record AnalysisProviderDatadogConfig : Type := mkAnalysisProviderDatadogConfig {
  dd_Address : string;
  dd_APIKeyFile : string;
  dd_ApplicationKeyFile : string
}.

Record AnalysisProviderStackdriverConfig : Type := mkAnalysisProviderStackdriverConfig {
  sd_ServiceAccountFile : string
}.

Record ImageProviderGCRConfig : Type := mkImageProviderGCRConfig {
  gcr_Domain : string
}.

Record ImageProviderDockerhubConfig : Type := mkImageProviderDockerhubConfig {
  hub_Username : string;
  hub_PasswordFile : string
}.

Record ImageProviderECRConfig : Type := mkImageProviderECRConfig { }.

Record NotificationRoute : Type := mkNotificationRoute {
  route_Name : string;
  route_Receiver : string;
  route_Events : list string;
  route_IgnoreEvents : list string;
  route_Groups : list string;
  route_IgnoreGroups : list string;
  route_Apps : list string;
  route_IgnoreApps : list string;
  route_Envs : list string;
  route_IgnoreEnvs : list string
}.

Record NotificationReceiverSlack : Type := mkNotificationReceiverSlack {
  slack_HookURL : string
}.

Record NotificationReceiverWebhook : Type := mkNotificationReceiverWebhook {
  webhook_URL : string
}.

Record NotificationReceiver : Type := mkNotificationReceiver {
  recv_Name : string;
  recv_Slack : option NotificationReceiverSlack;
  recv_Webhook : option NotificationReceiverWebhook
}.

Record Notifications : Type := mkNotifications {
  Routes : list NotificationRoute;
  Receivers : list NotificationReceiver
}.

Record SealedSecretManagementSealingKey : Type := mkSealedSecretManagementSealingKey {
  PrivateKeyFile : string;
  PublicKeyFile : string
}.

Record SealedSecretManagementGCPKMS : Type := mkSealedSecretManagementGCPKMS {
  KeyName : string;
  DecryptServiceAccountFile : string;
  EncryptServiceAccountFile : string
}.

(** The zero values that [&T{}] allocates. *)
Definition zero_CloudProviderKubernetesConfig : CloudProviderKubernetesConfig :=
  mkCloudProviderKubernetesConfig "" "" (mkKubernetesAppStateInformer "" [] []).
Definition zero_CloudProviderTerraformConfig : CloudProviderTerraformConfig :=
  mkCloudProviderTerraformConfig [].
Definition zero_CloudProviderCloudRunConfig : CloudProviderCloudRunConfig :=
  mkCloudProviderCloudRunConfig "" "" "".
Definition zero_CloudProviderLambdaConfig : CloudProviderLambdaConfig :=
  mkCloudProviderLambdaConfig "".
Definition zero_ImageProviderDockerhubConfig : ImageProviderDockerhubConfig :=
  mkImageProviderDockerhubConfig "" "".
Definition zero_ImageProviderGCRConfig : ImageProviderGCRConfig :=
  mkImageProviderGCRConfig "".
Definition zero_ImageProviderECRConfig : ImageProviderECRConfig :=
  mkImageProviderECRConfig.

(** [func (m *SealedSecretManagementSealingKey) Validate() error].  The
    receiver may be the nil pointer; reading a field through it panics. *)
Definition SealedSecretManagementSealingKey_Validate
    (m : option SealedSecretManagementSealingKey) : outcome (option error) :=
  match m with
  | None => Panicked panic_nil_deref
  | Some k =>
      if decide (PrivateKeyFile k = "") then
        Returned (Some "privateKeyFile must be set")
      else if decide (PublicKeyFile k = "") then
        Returned (Some "publicKeyFile must be set")
      else Returned None
  end.

(** [func (m *SealedSecretManagementGCPKMS) Validate() error] *)
Definition SealedSecretManagementGCPKMS_Validate
    (m : option SealedSecretManagementGCPKMS) : outcome (option error) :=
  match m with
  | None => Panicked panic_nil_deref
  | Some k =>
      if decide (KeyName k = "") then
        Returned (Some "keyName must be set")
      else if decide (DecryptServiceAccountFile k = "") then
        Returned (Some "decryptServiceAccountFile must be set")
      else if decide (EncryptServiceAccountFile k = "") then
        Returned (Some "encryptServiceAccountFile must be set")
      else Returned None
  end.

Section piped.

(** The enumerations of package [model] and their constants are declared
    outside this development; the code only compares their values and
    prints them. *)
Context {CloudProviderType AnalysisProviderType : Type}.
Context {ImageProviderType SealedSecretManagementType : Type}.
Context `{!EqDecision CloudProviderType}.
Context `{!EqDecision ImageProviderType}.
Context `{!EqDecision SealedSecretManagementType}.

Variables model_CloudProviderKubernetes model_CloudProviderTerraform
          model_CloudProviderCloudRun model_CloudProviderLambda
  : CloudProviderType.
Variables model_ImageProviderTypeDockerhub model_ImageProviderTypeGCR
          model_ImageProviderTypeECR
  : ImageProviderType.
Variables model_SealedSecretManagementSealingKey
          model_SealedSecretManagementGCPKMS
  : SealedSecretManagementType.
Variable SealedSecretManagementType_String
  : SealedSecretManagementType → string.

(** The zero values of the enumerations (what a composite literal without
    the field holds). *)
Variable zero_CloudProviderType : CloudProviderType.
Variable zero_ImageProviderType : ImageProviderType.

Record PipedCloudProvider : Type := mkPipedCloudProvider {
  cp_Name : string;
  cp_Type : CloudProviderType;
  KubernetesConfig : option CloudProviderKubernetesConfig;
  TerraformConfig : option CloudProviderTerraformConfig;
  CloudRunConfig : option CloudProviderCloudRunConfig;
  LambdaConfig : option CloudProviderLambdaConfig
}.

Record genericPipedCloudProvider : Type := mkGenericPipedCloudProvider {
  gcp_Name : string;
  gcp_Type : CloudProviderType;
  gcp_Config : bytes
}.

Record PipedAnalysisProvider : Type := mkPipedAnalysisProvider {
  ap_Name : string;
  ap_Type : AnalysisProviderType;
  PrometheusConfig : option AnalysisProviderPrometheusConfig;
  DatadogConfig : option AnalysisProviderDatadogConfig;
  StackdriverConfig : option AnalysisProviderStackdriverConfig
}.

Record PipedImageProvider : Type := mkPipedImageProvider {
  ip_Name : string;
  ip_Type : ImageProviderType;
  PullInterval : Duration;
  DockerhubConfig : option ImageProviderDockerhubConfig;
  GCRConfig : option ImageProviderGCRConfig;
  ECRConfig : option ImageProviderECRConfig
}.

Record genericPipedImageProvider : Type := mkGenericPipedImageProvider {
  gip_Name : string;
  gip_Type : ImageProviderType;
  gip_PullInterval : Duration;
  gip_Config : bytes
}.

Record SealedSecretManagement : Type := mkSealedSecretManagement {
  ssm_Type : SealedSecretManagementType;
  SealingKeyConfig : option SealedSecretManagementSealingKey;
  GCPKMSConfig : option SealedSecretManagementGCPKMS
}.

Record PipedSpec : Type := mkPipedSpec {
  ProjectID : string;
  PipedID : string;
  PipedKeyFile : string;
  APIAddress : string;
  WebAddress : string;
  SyncInterval : Duration;
  Git : PipedGit;
  Repositories : list PipedRepository;
  ChartRepositories : list HelmChartRepository;
  CloudProviders : list PipedCloudProvider;
  AnalysisProviders : list PipedAnalysisProvider;
  ImageProviders : list PipedImageProvider;
  spec_Notifications : Notifications;
  spec_SealedSecretManagement : option SealedSecretManagement
}.

(** Assignments to a single field. *)
Definition set_SyncInterval (s : PipedSpec) (d : Duration) : PipedSpec :=
  mkPipedSpec (ProjectID s) (PipedID s) (PipedKeyFile s) (APIAddress s)
    (WebAddress s) d (Git s) (Repositories s) (ChartRepositories s)
    (CloudProviders s) (AnalysisProviders s) (ImageProviders s)
    (spec_Notifications s) (spec_SealedSecretManagement s).

Definition set_CloudProviders (s : PipedSpec) (l : list PipedCloudProvider)
  : PipedSpec :=
  mkPipedSpec (ProjectID s) (PipedID s) (PipedKeyFile s) (APIAddress s)
    (WebAddress s) (SyncInterval s) (Git s) (Repositories s)
    (ChartRepositories s) l (AnalysisProviders s) (ImageProviders s)
    (spec_Notifications s) (spec_SealedSecretManagement s).

(** [var DefaultKubernetesCloudProvider = PipedCloudProvider{...}] *)
Definition DefaultKubernetesCloudProvider : PipedCloudProvider :=
  mkPipedCloudProvider "kubernetes-default" model_CloudProviderKubernetes
    (Some zero_CloudProviderKubernetesConfig) None None None.

(** [func (m *SealedSecretManagement) Validate() error] *)
Definition SealedSecretManagement_Validate (m : SealedSecretManagement)
  : outcome (option error) :=
  if decide (ssm_Type m = model_SealedSecretManagementSealingKey) then
    SealedSecretManagementSealingKey_Validate (SealingKeyConfig m)
  else if decide (ssm_Type m = model_SealedSecretManagementGCPKMS) then
    SealedSecretManagementGCPKMS_Validate (GCPKMSConfig m)
  else
    Returned (Some ("unsupported sealed secret management type: "
                      +:+ SealedSecretManagementType_String (ssm_Type m))).

(** [func (s *PipedSpec) Validate() error] *)
Definition PipedSpec_Validate (s : PipedSpec)
  : PipedSpec * outcome (option error) :=
  if decide (ProjectID s = "") then
    (s, Returned (Some "projectID must be set"))
  else if decide (PipedID s = "") then
    (s, Returned (Some "pipedID must be set"))
  else if decide (PipedKeyFile s = "") then
    (s, Returned (Some "pipedKeyFile must be set"))
  else if decide (APIAddress s = "") then
    (s, Returned (Some "apiAddress must be set"))
  else if decide (WebAddress s = "") then
    (s, Returned (Some "webAddress must be set"))
  else
    let s1 :=
      if decide (SyncInterval s < 0)%Z then set_SyncInterval s time_Minute
      else s in
    match spec_SealedSecretManagement s1 with
    | Some m =>
        match SealedSecretManagement_Validate m with
        | Returned (Some err) => (s1, Returned (Some err))
        | Returned None => (s1, Returned None)
        | Panicked msg => (s1, Panicked msg)
        end
    | None => (s1, Returned None)
    end.

(** The loop of [EnableDefaultKubernetesCloudProvider]: does some element
    carry the default provider's name? *)
Fixpoint has_default_name (l : list PipedCloudProvider) : bool :=
  match l with
  | [] => false
  | cp :: rest =>
      if decide (cp_Name cp = cp_Name DefaultKubernetesCloudProvider)
      then true
      else has_default_name rest
  end.

(** [func (s *PipedSpec) EnableDefaultKubernetesCloudProvider()] *)
Definition PipedSpec_EnableDefaultKubernetesCloudProvider (s : PipedSpec)
  : PipedSpec :=
  if has_default_name (CloudProviders s) then s
  else set_CloudProviders s
         (CloudProviders s ++ [DefaultKubernetesCloudProvider]).

(** The loop of [HasCloudProvider]. *)
Fixpoint has_cloud_provider (l : list PipedCloudProvider) (name : string)
    (t : CloudProviderType) : bool :=
  match l with
  | [] => false
  | cp :: rest =>
      if decide (cp_Name cp ≠ name) then has_cloud_provider rest name t
      else if decide (cp_Type cp ≠ t) then has_cloud_provider rest name t
      else true
  end.

(** [func (s *PipedSpec) HasCloudProvider(name string, t model.CloudProviderType) bool] *)
Definition PipedSpec_HasCloudProvider (s : PipedSpec) (name : string)
    (t : CloudProviderType) : bool :=
  has_cloud_provider (CloudProviders s) name t.

(** [PipedCloudProvider{}] *)
Definition zero_PipedCloudProvider : PipedCloudProvider :=
  mkPipedCloudProvider "" zero_CloudProviderType None None None None.

(** The loop of [FindCloudProvider]. *)
Fixpoint find_cloud_provider (l : list PipedCloudProvider) (name : string)
    (t : CloudProviderType) : PipedCloudProvider * bool :=
  match l with
  | [] => (zero_PipedCloudProvider, false)
  | p :: rest =>
      if decide (cp_Name p ≠ name) then find_cloud_provider rest name t
      else if decide (cp_Type p ≠ t) then find_cloud_provider rest name t
      else (p, true)
  end.

(** [func (s *PipedSpec) FindCloudProvider(name string, t model.CloudProviderType) (PipedCloudProvider, bool)] *)
Definition PipedSpec_FindCloudProvider (s : PipedSpec) (name : string)
    (t : CloudProviderType) : PipedCloudProvider * bool :=
  find_cloud_provider (CloudProviders s) name t.

(** *** Decoders *)

(** The statement pair [p.X = &T{}; if len(raw) > 0 { err = json.Unmarshal(raw, p.X) }]:
    the freshly allocated value after the optional decoding, and [err]
    (nil before the statement). *)
Definition unmarshal_config {A : Type} `{!Unmarshaler A} (raw : bytes)
    (zero : A) : A * option error :=
  if decide (0 < length raw) then json_Unmarshal raw zero
  else (zero, None).

Context `{!Unmarshaler genericPipedCloudProvider}.
Context `{!Unmarshaler genericPipedImageProvider}.
Context `{!Unmarshaler CloudProviderKubernetesConfig}.
Context `{!Unmarshaler CloudProviderTerraformConfig}.
Context `{!Unmarshaler CloudProviderCloudRunConfig}.
Context `{!Unmarshaler CloudProviderLambdaConfig}.
Context `{!Unmarshaler ImageProviderDockerhubConfig}.
Context `{!Unmarshaler ImageProviderGCRConfig}.
Context `{!Unmarshaler ImageProviderECRConfig}.

(** [genericPipedCloudProvider{}] *)
Definition zero_genericPipedCloudProvider : genericPipedCloudProvider :=
  mkGenericPipedCloudProvider "" zero_CloudProviderType [].

(** [genericPipedImageProvider{}] *)
Definition zero_genericPipedImageProvider : genericPipedImageProvider :=
  mkGenericPipedImageProvider "" zero_ImageProviderType 0%Z [].

(** [func (p *PipedCloudProvider) UnmarshalJSON(data []byte) error] *)
Definition PipedCloudProvider_UnmarshalJSON (p : PipedCloudProvider)
    (data : bytes) : PipedCloudProvider * option error :=
  let '(gp, err) := json_Unmarshal data zero_genericPipedCloudProvider in
  match err with
  | Some e => (p, Some e)
  | None =>
      let name := gcp_Name gp in
      let type := gcp_Type gp in
      if decide (type = model_CloudProviderKubernetes) then
        let '(c, err) :=
          unmarshal_config (gcp_Config gp) zero_CloudProviderKubernetesConfig in
        (mkPipedCloudProvider name type (Some c) (TerraformConfig p)
           (CloudRunConfig p) (LambdaConfig p), err)
      else if decide (type = model_CloudProviderTerraform) then
        let '(c, err) :=
          unmarshal_config (gcp_Config gp) zero_CloudProviderTerraformConfig in
        (mkPipedCloudProvider name type (KubernetesConfig p) (Some c)
           (CloudRunConfig p) (LambdaConfig p), err)
      else if decide (type = model_CloudProviderCloudRun) then
        let '(c, err) :=
          unmarshal_config (gcp_Config gp) zero_CloudProviderCloudRunConfig in
        (mkPipedCloudProvider name type (KubernetesConfig p)
           (TerraformConfig p) (Some c) (LambdaConfig p), err)
      else if decide (type = model_CloudProviderLambda) then
        let '(c, err) :=
          unmarshal_config (gcp_Config gp) zero_CloudProviderLambdaConfig in
        (mkPipedCloudProvider name type (KubernetesConfig p)
           (TerraformConfig p) (CloudRunConfig p) (Some c), err)
      else
        (mkPipedCloudProvider name type (KubernetesConfig p)
           (TerraformConfig p) (CloudRunConfig p) (LambdaConfig p),
         Some ("unsupported cloud provider type: " +:+ name))
  end.

(** [func (p *PipedImageProvider) UnmarshalJSON(data []byte) error] *)
Definition PipedImageProvider_UnmarshalJSON (p : PipedImageProvider)
    (data : bytes) : PipedImageProvider * option error :=
  let '(gp, err) := json_Unmarshal data zero_genericPipedImageProvider in
  match err with
  | Some e => (p, Some e)
  | None =>
      let name := gip_Name gp in
      let type := gip_Type gp in
      let interval :=
        if decide (gip_PullInterval gp = 0)%Z then (time_Minute * 5)%Z
        else gip_PullInterval gp in
      if decide (type = model_ImageProviderTypeDockerhub) then
        let '(c, err) :=
          unmarshal_config (gip_Config gp) zero_ImageProviderDockerhubConfig in
        (mkPipedImageProvider name type interval (Some c) (GCRConfig p)
           (ECRConfig p), err)
      else if decide (type = model_ImageProviderTypeGCR) then
        let '(c, err) :=
          unmarshal_config (gip_Config gp) zero_ImageProviderGCRConfig in
        (mkPipedImageProvider name type interval (DockerhubConfig p)
           (Some c) (ECRConfig p), err)
      else if decide (type = model_ImageProviderTypeECR) then
        let '(c, err) :=
          unmarshal_config (gip_Config gp) zero_ImageProviderECRConfig in
        (mkPipedImageProvider name type interval (DockerhubConfig p)
           (GCRConfig p) (Some c), err)
      else
        (mkPipedImageProvider name type interval (DockerhubConfig p)
           (GCRConfig p) (ECRConfig p),
         Some ("unsupported image provider type: " +:+ name))
  end.

(** *** Repositories and analysis providers *)

(** The loop of [GetRepositoryMap]: [m[repo.RepoID] = repo] for every
    repository in turn. *)
Fixpoint repository_map_loop (l : list PipedRepository)
    (m : gmap string PipedRepository) : gmap string PipedRepository :=
  match l with
  | [] => m
  | repo :: rest => repository_map_loop rest (<[repo_RepoID repo := repo]> m)
  end.

(** [func (s *PipedSpec) GetRepositoryMap() map[string]PipedRepository].  The
    map is allocated by [make], so the result is never the nil map. *)
Definition PipedSpec_GetRepositoryMap (s : PipedSpec)
  : gmap string PipedRepository :=
  repository_map_loop (Repositories s) ∅.

(** [PipedRepository{}] *)
Definition zero_PipedRepository : PipedRepository :=
  mkPipedRepository "" "" "".

(** The loop of [GetRepository]. *)
Fixpoint get_repository (l : list PipedRepository) (id : string)
  : PipedRepository * bool :=
  match l with
  | [] => (zero_PipedRepository, false)
  | repo :: rest =>
      if decide (repo_RepoID repo = id) then (repo, true)
      else get_repository rest id
  end.

(** [func (s *PipedSpec) GetRepository(id string) (PipedRepository, bool)] *)
Definition PipedSpec_GetRepository (s : PipedSpec) (id : string)
  : PipedRepository * bool :=
  get_repository (Repositories s) id.

Variable zero_AnalysisProviderType : AnalysisProviderType.

(** [PipedAnalysisProvider{}] *)
Definition zero_PipedAnalysisProvider : PipedAnalysisProvider :=
  mkPipedAnalysisProvider "" zero_AnalysisProviderType None None None.

(** The loop of [GetAnalysisProvider]. *)
Fixpoint get_analysis_provider (l : list PipedAnalysisProvider)
    (name : string) : PipedAnalysisProvider * bool :=
  match l with
  | [] => (zero_PipedAnalysisProvider, false)
  | p :: rest =>
      if decide (ap_Name p = name) then (p, true)
      else get_analysis_provider rest name
  end.

(** [func (s *PipedSpec) GetAnalysisProvider(name string) (PipedAnalysisProvider, bool)] *)
Definition PipedSpec_GetAnalysisProvider (s : PipedSpec) (name : string)
  : PipedAnalysisProvider * bool :=
  get_analysis_provider (AnalysisProviders s) name.

(** *** Decoders of the analysis providers and of the sealed secrets *)

Context `{!EqDecision AnalysisProviderType}.
Variables model_AnalysisProviderPrometheus model_AnalysisProviderDatadog
          model_AnalysisProviderStackdriver
  : AnalysisProviderType.
Variable zero_SealedSecretManagementType : SealedSecretManagementType.

Record genericPipedAnalysisProvider : Type := mkGenericPipedAnalysisProvider {
  gap_Name : string;
  gap_Type : AnalysisProviderType;
  gap_Config : bytes
}.

Record genericSealedSecretManagement : Type := mkGenericSealedSecretManagement {
  gssm_Type : SealedSecretManagementType;
  gssm_Config : bytes
}.

(** [genericPipedAnalysisProvider{}] *)
Definition zero_genericPipedAnalysisProvider : genericPipedAnalysisProvider :=
  mkGenericPipedAnalysisProvider "" zero_AnalysisProviderType [].

(** [genericSealedSecretManagement{}] *)
Definition zero_genericSealedSecretManagement
  : genericSealedSecretManagement :=
  mkGenericSealedSecretManagement zero_SealedSecretManagementType [].

Definition zero_AnalysisProviderPrometheusConfig
  : AnalysisProviderPrometheusConfig :=
  mkAnalysisProviderPrometheusConfig "" "" "".
Definition zero_AnalysisProviderDatadogConfig
  : AnalysisProviderDatadogConfig :=
  mkAnalysisProviderDatadogConfig "" "" "".
Definition zero_AnalysisProviderStackdriverConfig
  : AnalysisProviderStackdriverConfig :=
  mkAnalysisProviderStackdriverConfig "".
Definition zero_SealedSecretManagementSealingKey
  : SealedSecretManagementSealingKey :=
  mkSealedSecretManagementSealingKey "" "".
Definition zero_SealedSecretManagementGCPKMS : SealedSecretManagementGCPKMS :=
  mkSealedSecretManagementGCPKMS "" "" "".

Context `{!Unmarshaler genericPipedAnalysisProvider}.
Context `{!Unmarshaler genericSealedSecretManagement}.
Context `{!Unmarshaler AnalysisProviderPrometheusConfig}.
Context `{!Unmarshaler AnalysisProviderDatadogConfig}.
Context `{!Unmarshaler AnalysisProviderStackdriverConfig}.
Context `{!Unmarshaler SealedSecretManagementSealingKey}.
Context `{!Unmarshaler SealedSecretManagementGCPKMS}.

(** [func (p *PipedAnalysisProvider) UnmarshalJSON(data []byte) error] *)
Definition PipedAnalysisProvider_UnmarshalJSON (p : PipedAnalysisProvider)
    (data : bytes) : PipedAnalysisProvider * option error :=
  let '(gp, err) := json_Unmarshal data zero_genericPipedAnalysisProvider in
  match err with
  | Some e => (p, Some e)
  | None =>
      let name := gap_Name gp in
      let type := gap_Type gp in
      if decide (type = model_AnalysisProviderPrometheus) then
        let '(c, err) :=
          unmarshal_config (gap_Config gp)
            zero_AnalysisProviderPrometheusConfig in
        (mkPipedAnalysisProvider name type (Some c) (DatadogConfig p)
           (StackdriverConfig p), err)
      else if decide (type = model_AnalysisProviderDatadog) then
        let '(c, err) :=
          unmarshal_config (gap_Config gp) zero_AnalysisProviderDatadogConfig in
        (mkPipedAnalysisProvider name type (PrometheusConfig p) (Some c)
           (StackdriverConfig p), err)
      else if decide (type = model_AnalysisProviderStackdriver) then
        let '(c, err) :=
          unmarshal_config (gap_Config gp)
            zero_AnalysisProviderStackdriverConfig in
        (mkPipedAnalysisProvider name type (PrometheusConfig p)
           (DatadogConfig p) (Some c), err)
      else
        (mkPipedAnalysisProvider name type (PrometheusConfig p)
           (DatadogConfig p) (StackdriverConfig p),
         Some ("unsupported analysis provider type: " +:+ name))
  end.

(** [func (p *SealedSecretManagement) UnmarshalJSON(data []byte) error] *)
Definition SealedSecretManagement_UnmarshalJSON (p : SealedSecretManagement)
    (data : bytes) : SealedSecretManagement * option error :=
  let '(g, err) := json_Unmarshal data zero_genericSealedSecretManagement in
  match err with
  | Some e => (p, Some e)
  | None =>
      let type := gssm_Type g in
      if decide (type = model_SealedSecretManagementSealingKey) then
        let '(c, err) :=
          unmarshal_config (gssm_Config g)
            zero_SealedSecretManagementSealingKey in
        (mkSealedSecretManagement type (Some c) (GCPKMSConfig p), err)
      else if decide (type = model_SealedSecretManagementGCPKMS) then
        let '(c, err) :=
          unmarshal_config (gssm_Config g) zero_SealedSecretManagementGCPKMS in
        (mkSealedSecretManagement type (SealingKeyConfig p) (Some c), err)
      else
        (mkSealedSecretManagement type (SealingKeyConfig p) (GCPKMSConfig p),
         Some ("unsupported sealed secret management type: "
                 +:+ SealedSecretManagementType_String type))
  end.

End piped.
End config.

(** ** Sample values

    One concrete choice for what the development leaves open: stage kinds and
    the enumerations of package [model] are strings, inputs and executors are
    numbers, and a decoder answers one fixed document. *)

Module sample.
Import executor config.

Definition stage_String : string → string := id.

(** A factory that wraps the input it is given. *)
Definition wait_factory : @Factory nat nat := Some (λ i, Some (i + 1)).

(** An initialised registry in which ["WAIT"] is bound. *)
Definition wait_registry : @registry string _ _ nat nat :=
  mkRegistry (Some {[ "WAIT" := wait_factory ]}).

Definition Kubernetes : string := "KUBERNETES".
Definition Terraform : string := "TERRAFORM".
Definition CloudRun : string := "CLOUDRUN".
Definition Lambda : string := "LAMBDA".
Definition Dockerhub : string := "DOCKER_HUB".
Definition GCR : string := "GCR".
Definition ECR : string := "ECR".
Definition SealingKey : string := "SEALING_KEY".
Definition GCPKMS : string := "GCP_KMS".

Definition Spec : Type := @PipedSpec string string string string.
Definition CloudProvider : Type := @PipedCloudProvider string.
Definition ImageProvider : Type := @PipedImageProvider string.

(** A decoder that answers every input with the value [v] and the error [e]. *)
Definition fixed_document {A : Type} (v : A) (e : option error)
  : Unmarshaler A := λ _ _, (v, e).

(** A decoder that leaves its target as it is. *)
Definition empty_document {A : Type} : Unmarshaler A := λ _ v, (v, None).

(** [{"name": "gcp", "type": "AZURE"}] *)
Definition azure_cloud_document : Unmarshaler (@genericPipedCloudProvider string) :=
  fixed_document (mkGenericPipedCloudProvider "gcp" "AZURE" []) None.

(** [{"name": "quay", "type": "QUAY", "pullInterval": "30s"}] *)
Definition quay_image_document : Unmarshaler (@genericPipedImageProvider string) :=
  fixed_document
    (mkGenericPipedImageProvider "quay" "QUAY" (30 * time_Second)%Z []) None.

(** [{"name": "hub", "type": "DOCKER_HUB"}] *)
Definition hub_image_document : Unmarshaler (@genericPipedImageProvider string) :=
  fixed_document (mkGenericPipedImageProvider "hub" "DOCKER_HUB" 0%Z []) None.

(** [{"name": "registry", "type": "GCR", "pullInterval": "30s"}] *)
Definition gcr_image_document : Unmarshaler (@genericPipedImageProvider string) :=
  fixed_document
    (mkGenericPipedImageProvider "registry" "GCR" (30 * time_Second)%Z []) None.

Definition UnmarshalCloud (d : Unmarshaler (@genericPipedCloudProvider string))
    (p : CloudProvider) (data : bytes) : CloudProvider * option error :=
  @PipedCloudProvider_UnmarshalJSON string _ Kubernetes Terraform CloudRun
    Lambda "" d empty_document empty_document empty_document empty_document
    p data.

Definition UnmarshalImage (d : Unmarshaler (@genericPipedImageProvider string))
    (p : ImageProvider) (data : bytes) : ImageProvider * option error :=
  @PipedImageProvider_UnmarshalJSON string _ Dockerhub GCR ECR "" d
    empty_document empty_document empty_document p data.

Definition no_cloud_provider : CloudProvider :=
  mkPipedCloudProvider "" "" None None None None.

Definition no_image_provider : ImageProvider :=
  mkPipedImageProvider "" "" 0%Z None None None.

Definition default_provider : CloudProvider :=
  DefaultKubernetesCloudProvider Kubernetes.

Definition terraform_provider : CloudProvider :=
  mkPipedCloudProvider "terraform-dev" Terraform None
    (Some zero_CloudProviderTerraformConfig) None None.

Definition git_settings : PipedGit :=
  mkPipedGit "piped" "piped@example.com" "" "" "" "".

(** A piped configuration with every required field set. *)
Definition piped_spec (interval : Duration) (cps : list CloudProvider)
    (ssm : option (@SealedSecretManagement string)) : Spec :=
  mkPipedSpec "project-1" "piped-1" "/etc/piped/key" "api.example.com:443"
    "https://web.example.com" interval git_settings [] [] cps [] []
    (mkNotifications [] []) ssm.
Arguments piped_spec interval%_Z cps ssm.

(** The same configuration without a project. *)
Definition piped_spec_without_project : Spec :=
  mkPipedSpec "" "piped-1" "/etc/piped/key" "api.example.com:443"
    "https://web.example.com" 0%Z git_settings [] [] [] [] []
    (mkNotifications [] []) None.

(** Sealed-secret management by sealing key, with the public key missing. *)
Definition sealing_key_without_public : @SealedSecretManagement string :=
  mkSealedSecretManagement SealingKey
    (Some (mkSealedSecretManagementSealingKey "/etc/piped/private.pem" ""))
    None.

Definition sealing_key_complete : @SealedSecretManagement string :=
  mkSealedSecretManagement SealingKey
    (Some (mkSealedSecretManagementSealingKey "/etc/piped/private.pem"
             "/etc/piped/public.pem"))
    None.

Definition Validate (s : Spec) : Spec * outcome (option error) :=
  PipedSpec_Validate SealingKey GCPKMS id s.

Definition ValidateSealed (m : @SealedSecretManagement string)
  : outcome (option error) :=
  SealedSecretManagement_Validate SealingKey GCPKMS id m.

(** Two more factories. *)
Definition approval_factory : nat → option nat := λ i, Some (i + 1).
Definition analysis_factory : nat → option nat := λ i, Some (2 * i).

(** The map of [wait_registry]. *)
Definition wait_factories : gmap string (@Factory nat nat) :=
  {[ "WAIT" := wait_factory ]}.

Definition Prometheus : string := "PROMETHEUS".
Definition Datadog : string := "DATADOG".
Definition Stackdriver : string := "STACKDRIVER".

Definition AnalysisProvider : Type := @PipedAnalysisProvider string.

(** [{"type": "VAULT"}] *)
Definition vault_sealed_document
  : Unmarshaler (@genericSealedSecretManagement string) :=
  fixed_document (mkGenericSealedSecretManagement "VAULT" []) None.

(** [{"type": "SEALING_KEY"}] *)
Definition sealing_key_document
  : Unmarshaler (@genericSealedSecretManagement string) :=
  fixed_document (mkGenericSealedSecretManagement "SEALING_KEY" []) None.

(** [{"name": "nr", "type": "NEWRELIC"}] *)
Definition newrelic_analysis_document
  : Unmarshaler (@genericPipedAnalysisProvider string) :=
  fixed_document (mkGenericPipedAnalysisProvider "nr" "NEWRELIC" []) None.

(** [{"name": "kubernetes-default", "type": "KUBERNETES"}] *)
Definition default_cloud_document
  : Unmarshaler (@genericPipedCloudProvider string) :=
  fixed_document
    (mkGenericPipedCloudProvider "kubernetes-default" "KUBERNETES" []) None.

Definition UnmarshalSealed
    (d : Unmarshaler (@genericSealedSecretManagement string))
    (p : @SealedSecretManagement string) (data : bytes)
  : @SealedSecretManagement string * option error :=
  @SealedSecretManagement_UnmarshalJSON string _ SealingKey GCPKMS id "" d
    empty_document empty_document p data.

Definition UnmarshalAnalysis
    (d : Unmarshaler (@genericPipedAnalysisProvider string))
    (p : AnalysisProvider) (data : bytes) : AnalysisProvider * option error :=
  @PipedAnalysisProvider_UnmarshalJSON string "" _ Prometheus Datadog
    Stackdriver d empty_document empty_document empty_document p data.

Definition no_sealed_secret : @SealedSecretManagement string :=
  mkSealedSecretManagement "" None None.

Definition no_analysis_provider : AnalysisProvider :=
  mkPipedAnalysisProvider "" "" None None None.

Definition app_repository : PipedRepository :=
  mkPipedRepository "app" "git@github.com:org/app.git" "master".

Definition infra_repository : PipedRepository :=
  mkPipedRepository "infra" "git@github.com:org/infra.git" "master".

(** A piped configuration that watches the two repositories. *)
Definition piped_spec_with_repositories : Spec :=
  mkPipedSpec "project-1" "piped-1" "/etc/piped/key" "api.example.com:443"
    "https://web.example.com" 0%Z git_settings
    [app_repository; infra_repository] [] [] [] []
    (mkNotifications [] []) None.

End sample.

(** * Properties of the executor registry *)

Section registry_properties.
Import executor.

Context {Stage : Type} `{Countable Stage}.
Context {Input Executor : Type}.
Variable stage_String : Stage → string.

Abbreviation registry_Register := (executor.registry_Register stage_String).
Abbreviation registry_Executor := (executor.registry_Executor stage_String).
Abbreviation registry := (@registry Stage _ _ Input Executor).
Abbreviation Factory := (@Factory Input Executor).

Implicit Types (r : registry) (k : Stage) (f : Factory) (i : Input).

Lemma map_index_nil k : map_index (None : option (gmap Stage Factory)) k = None.
Proof. reflexivity. Qed.

Lemma map_index_insert (g : gmap Stage Factory) k k' f :
  map_index (Some (<[k := f]> g)) k' =
    if decide (k = k') then Some f else map_index (Some g) k'.
Proof. simpl. apply lookup_insert. Qed.

(** Reading the registry never changes it. *)
Lemma registry_Executor_state r k i : (registry_Executor r k i).1 = r.
Proof.
  unfold executor.registry_Executor.
  destruct (map_index (factories r) k) as [[fn|]|]; reflexivity.
Qed.

(** A registration that returns an error leaves the registry as it was. *)
Lemma registry_Register_error_state r k f e :
  (registry_Register r k f).2 = Returned (Some e) →
  (registry_Register r k f).1 = r.
Proof.
  unfold executor.registry_Register.
  destruct (map_index (factories r) k); [reflexivity|].
  destruct (factories r); simpl; [discriminate | reflexivity].
Qed.

(** On a registry whose map has been allocated, registering a free kind
    succeeds and binds the kind; other kinds keep their binding. *)
Lemma registry_Register_allocated (g : gmap Stage Factory) k f :
  g !! k = None →
  registry_Register (mkRegistry (Some g)) k f
    = (mkRegistry (Some (<[k := f]> g)), Returned None).
Proof.
  intros Hfree. unfold executor.registry_Register. simpl.
  rewrite Hfree. reflexivity.
Qed.

Lemma registry_Register_then_Executor (g : gmap Stage Factory) k
    (fn : Input → option Executor) i :
  g !! k = None →
  (registry_Executor
     (registry_Register (mkRegistry (Some g)) k (Some fn)).1 k i).2
    = Returned (fn i, None).
Proof.
  intros Hfree. rewrite registry_Register_allocated by done.
  unfold executor.registry_Executor. cbn [fst factories].
  rewrite map_index_insert, decide_True by done. reflexivity.
Qed.

Lemma registry_Register_other (g : gmap Stage Factory) k k' f :
  k ≠ k' →
  map_index (factories (registry_Register (mkRegistry (Some g)) k f).1) k'
    = g !! k'.
Proof.
  intros Hne. unfold executor.registry_Register. simpl.
  destruct (g !! k) eqn:Hk; simpl; [reflexivity|].
  by rewrite lookup_insert_ne.
Qed.

(** C1.  On the registry that [DefaultRegistry()] returns, [Register(k, f)]
    does not return: the [factories] map of [defaultRegistry] is never
    allocated, the lookup finds [k] free and the assignment
    [r.factories[stage] = f] panics, for every kind and every factory.  The
    registry is left without any binding, so a later [Executor(k, i)]
    answers with the unknown-stage error instead of [f(i)]. *)
Theorem Register_on_DefaultRegistry_panics k f i :
  registry_Register DefaultRegistry k f
    = (DefaultRegistry, Panicked panic_nil_map)
  ∧ (registry_Executor (registry_Register DefaultRegistry k f).1 k i).2
      = Returned (None, Some ("no registered executor for stage "
                                +:+ stage_String k)).
Proof. split; reflexivity. Qed.

(** C2.  When a kind [k] is already bound to a factory [f],
    [Register(k, f')] returns the already-registered error for every [f'],
    and the registry, hence the binding of [k] to [f], is unchanged. *)
Theorem Register_bound_fails r k f f' :
  bound r k f →
  (registry_Register r k f').2
    = Returned (Some ("executor for " +:+ stage_String k
                        +:+ " stage has already registered"))
  ∧ (registry_Register r k f').1 = r
  ∧ bound (registry_Register r k f').1 k f.
Proof.
  unfold executor.bound. intros Hb.
  assert (Hreg : registry_Register r k f'
            = (r, Returned (Some ("executor for " +:+ stage_String k
                                    +:+ " stage has already registered")))).
  { unfold executor.registry_Register. rewrite Hb. reflexivity. }
  rewrite Hreg. simpl. auto.
Qed.

(** C3.  When no factory is bound to [k], [Executor(k, i)] returns the nil
    executor and the unknown-stage error for every input [i], and the
    registry is unchanged. *)
Theorem Executor_unbound_fails r k i :
  unbound r k →
  registry_Executor r k i
    = (r, Returned (None, Some ("no registered executor for stage "
                                  +:+ stage_String k))).
Proof.
  unfold executor.unbound, executor.registry_Executor. intros Hu.
  rewrite Hu. reflexivity.
Qed.

End registry_properties.

(** * Properties of the piped configuration *)

Section piped_properties.
Import config.

Context {CloudProviderType AnalysisProviderType : Type}.
Context {ImageProviderType SealedSecretManagementType : Type}.
Context `{!EqDecision CloudProviderType}.
Context `{!EqDecision ImageProviderType}.
Context `{!EqDecision SealedSecretManagementType}.

Variables model_CloudProviderKubernetes model_CloudProviderTerraform
          model_CloudProviderCloudRun model_CloudProviderLambda
  : CloudProviderType.
Variables model_ImageProviderTypeDockerhub model_ImageProviderTypeGCR
          model_ImageProviderTypeECR
  : ImageProviderType.
Variables model_SealedSecretManagementSealingKey
          model_SealedSecretManagementGCPKMS
  : SealedSecretManagementType.
Variable SealedSecretManagementType_String
  : SealedSecretManagementType → string.
Variable zero_CloudProviderType : CloudProviderType.
Variable zero_ImageProviderType : ImageProviderType.

Abbreviation PipedSpec :=
  (@PipedSpec CloudProviderType AnalysisProviderType ImageProviderType
     SealedSecretManagementType).
Abbreviation PipedCloudProvider := (@PipedCloudProvider CloudProviderType).
Abbreviation PipedSpec_Validate :=
  (config.PipedSpec_Validate model_SealedSecretManagementSealingKey
     model_SealedSecretManagementGCPKMS SealedSecretManagementType_String).
Abbreviation SealedSecretManagement_Validate :=
  (config.SealedSecretManagement_Validate model_SealedSecretManagementSealingKey
     model_SealedSecretManagementGCPKMS SealedSecretManagementType_String).
Abbreviation PipedSpec_EnableDefaultKubernetesCloudProvider :=
  (config.PipedSpec_EnableDefaultKubernetesCloudProvider
     model_CloudProviderKubernetes).
Abbreviation PipedSpec_FindCloudProvider :=
  (config.PipedSpec_FindCloudProvider zero_CloudProviderType).

Implicit Types (s : PipedSpec) (l : list PipedCloudProvider).
Implicit Types (cp : PipedCloudProvider) (name : string).

(** *** Searching the cloud providers *)

Lemma find_cloud_provider_found l name t :
  (find_cloud_provider zero_CloudProviderType l name t).2
    = has_cloud_provider l name t.
Proof.
  induction l as [|cp l IH]; simpl; [reflexivity|].
  repeat case_decide; auto.
Qed.

Lemma find_cloud_provider_first l name t :
  (find_cloud_provider zero_CloudProviderType l name t).2 = true →
  ∃ l1 l2,
    l = l1 ++ (find_cloud_provider zero_CloudProviderType l name t).1 :: l2
    ∧ Forall (λ q, ¬ (cp_Name q = name ∧ cp_Type q = t)) l1.
Proof.
  induction l as [|cp l IH]; simpl; [discriminate|].
  destruct (decide (cp_Name cp ≠ name)) as [Hn|Hn].
  - intros Hfound. destruct (IH Hfound) as (l1 & l2 & Hl & Hl1).
    exists (cp :: l1), l2. split.
    + simpl. by rewrite <- Hl.
    + constructor; [|done]. intros [? _]. done.
  - destruct (decide (cp_Type cp ≠ t)) as [Ht|Ht].
    + intros Hfound. destruct (IH Hfound) as (l1 & l2 & Hl & Hl1).
      exists (cp :: l1), l2. split.
      * simpl. by rewrite <- Hl.
      * constructor; [|done]. intros [_ ?]. done.
    + intros _. exists [], l. split; [reflexivity | constructor].
Qed.

Lemma find_cloud_provider_matches l name t :
  (find_cloud_provider zero_CloudProviderType l name t).2 = true →
  cp_Name (find_cloud_provider zero_CloudProviderType l name t).1 = name
  ∧ cp_Type (find_cloud_provider zero_CloudProviderType l name t).1 = t.
Proof.
  induction l as [|cp l IH]; simpl; [discriminate|].
  destruct (decide (cp_Name cp ≠ name)) as [Hn|Hn]; [exact IH|].
  destruct (decide (cp_Type cp ≠ t)) as [Ht|Ht]; [exact IH|].
  intros _. simpl. split; [by apply dec_stable | by apply dec_stable].
Qed.

(** C9.  [HasCloudProvider(n, t)] is true exactly when
    [FindCloudProvider(n, t)] reports [found = true]; the provider returned
    then has name [n] and type [t] and every element of [CloudProviders]
    before it fails to have both. *)
Theorem HasCloudProvider_iff_FindCloudProvider s name t :
  (PipedSpec_HasCloudProvider s name t = true
   ↔ (PipedSpec_FindCloudProvider s name t).2 = true)
  ∧ ((PipedSpec_FindCloudProvider s name t).2 = true →
     ∃ l1 l2,
       CloudProviders s = l1 ++ (PipedSpec_FindCloudProvider s name t).1 :: l2
       ∧ cp_Name (PipedSpec_FindCloudProvider s name t).1 = name
       ∧ cp_Type (PipedSpec_FindCloudProvider s name t).1 = t
       ∧ ∀ q, q ∈ l1 → ¬ (cp_Name q = name ∧ cp_Type q = t)).
Proof.
  unfold config.PipedSpec_HasCloudProvider, config.PipedSpec_FindCloudProvider.
  split.
  - by rewrite find_cloud_provider_found.
  - intros Hfound.
    destruct (find_cloud_provider_first _ _ _ Hfound) as (l1 & l2 & Hl & Hl1).
    destruct (find_cloud_provider_matches _ _ _ Hfound) as [Hname Htype].
    exists l1, l2. repeat split; try done.
    by apply Forall_forall.
Qed.

(** *** The default kubernetes cloud provider *)

(** The providers of a list that carry the default provider's name. *)
Abbreviation named_default l :=
  (filter (λ cp : PipedCloudProvider, cp_Name cp = "kubernetes-default") l).

Lemma has_default_name_true l :
  has_default_name model_CloudProviderKubernetes l = true
  ↔ ∃ cp, cp ∈ l ∧ cp_Name cp = "kubernetes-default".
Proof.
  induction l as [|cp l IH]; simpl.
  - split; [discriminate|]. intros (? & Hin & _). by apply elem_of_nil in Hin.
  - case_decide as Hcp.
    + split; [|done]. intros _. exists cp. split; [left | done].
    + rewrite IH. split.
      * intros (q & Hin & Hq). exists q. split; [by right | done].
      * intros (q & Hin & Hq). apply elem_of_cons in Hin as [->|Hin]; [done|].
        by exists q.
Qed.

Lemma has_default_name_count l :
  has_default_name model_CloudProviderKubernetes l = true
  ↔ 1 ≤ length (named_default l).
Proof.
  induction l as [|cp l IH]; simpl.
  - split; [discriminate | lia].
  - case_decide as Hcp.
    + rewrite filter_cons_True by done. simpl. split; [lia | done].
    + by rewrite filter_cons_False.
Qed.

Lemma has_default_name_app_default l :
  has_default_name model_CloudProviderKubernetes
    (l ++ [DefaultKubernetesCloudProvider model_CloudProviderKubernetes])
  = true.
Proof.
  induction l as [|cp l IH]; simpl; [done|].
  by case_decide.
Qed.

Lemma named_default_app_default l :
  length (named_default
            (l ++ [DefaultKubernetesCloudProvider model_CloudProviderKubernetes]))
  = S (length (named_default l)).
Proof.
  rewrite filter_app, length_app, filter_cons_True by done. simpl. lia.
Qed.

(** What [EnableDefaultKubernetesCloudProvider] leaves in [CloudProviders]. *)
Lemma EnableDefault_CloudProviders s :
  CloudProviders (PipedSpec_EnableDefaultKubernetesCloudProvider s) =
    if has_default_name model_CloudProviderKubernetes (CloudProviders s)
    then CloudProviders s
    else CloudProviders s
           ++ [DefaultKubernetesCloudProvider model_CloudProviderKubernetes].
Proof.
  unfold config.PipedSpec_EnableDefaultKubernetesCloudProvider.
  by destruct (has_default_name _ (CloudProviders s)).
Qed.

(** C8, amended.  [EnableDefaultKubernetesCloudProvider] is idempotent on
    [CloudProviders]; a list that already holds a provider named
    ["kubernetes-default"] is unchanged; afterwards the list holds at least
    one provider of that name, and exactly one when it held at most one
    before. *)
Theorem EnableDefault_idempotent s :
  let s1 := PipedSpec_EnableDefaultKubernetesCloudProvider s in
  let s2 := PipedSpec_EnableDefaultKubernetesCloudProvider s1 in
  CloudProviders s2 = CloudProviders s1
  ∧ ((∃ cp, cp ∈ CloudProviders s ∧ cp_Name cp = "kubernetes-default") →
     CloudProviders s1 = CloudProviders s)
  ∧ 1 ≤ length (named_default (CloudProviders s1))
  ∧ (length (named_default (CloudProviders s)) ≤ 1 →
     length (named_default (CloudProviders s1)) = 1).
Proof.
  cbv zeta.
  rewrite (EnableDefault_CloudProviders
             (PipedSpec_EnableDefaultKubernetesCloudProvider s)).
  rewrite !EnableDefault_CloudProviders.
  destruct (has_default_name _ (CloudProviders s)) eqn:Hhas.
  - rewrite Hhas. apply has_default_name_count in Hhas.
    split; [done|]. split; [done|]. split; [done | lia].
  - rewrite has_default_name_app_default, named_default_app_default.
    split; [done|]. split; [|split].
    + intros Hex. apply has_default_name_true in Hex. congruence.
    + lia.
    + intros _. destruct (named_default (CloudProviders s)) eqn:Hnd; [done|].
      assert (1 ≤ length (named_default (CloudProviders s)))
        as Hone%has_default_name_count by (rewrite Hnd; simpl; lia).
      congruence.
Qed.

(** *** Validation *)

Lemma set_SyncInterval_fields s d :
  ProjectID (set_SyncInterval s d) = ProjectID s
  ∧ PipedID (set_SyncInterval s d) = PipedID s
  ∧ PipedKeyFile (set_SyncInterval s d) = PipedKeyFile s
  ∧ APIAddress (set_SyncInterval s d) = APIAddress s
  ∧ WebAddress (set_SyncInterval s d) = WebAddress s
  ∧ Git (set_SyncInterval s d) = Git s
  ∧ Repositories (set_SyncInterval s d) = Repositories s
  ∧ ChartRepositories (set_SyncInterval s d) = ChartRepositories s
  ∧ CloudProviders (set_SyncInterval s d) = CloudProviders s
  ∧ AnalysisProviders (set_SyncInterval s d) = AnalysisProviders s
  ∧ ImageProviders (set_SyncInterval s d) = ImageProviders s
  ∧ spec_Notifications (set_SyncInterval s d) = spec_Notifications s
  ∧ spec_SealedSecretManagement (set_SyncInterval s d)
      = spec_SealedSecretManagement s.
Proof. repeat split. Qed.

(** The receiver after [Validate]: the interval is replaced when the five
    required fields are set and the interval is negative, and nothing else
    is written. *)
Lemma Validate_state s :
  (PipedSpec_Validate s).1 =
    if decide (ProjectID s ≠ "" ∧ PipedID s ≠ "" ∧ PipedKeyFile s ≠ ""
               ∧ APIAddress s ≠ "" ∧ WebAddress s ≠ ""
               ∧ (SyncInterval s < 0)%Z)
    then set_SyncInterval s time_Minute
    else s.
Proof.
  unfold config.PipedSpec_Validate.
  destruct (decide (ProjectID s = "")) as [?|?];
    [rewrite decide_False by tauto; reflexivity|].
  destruct (decide (PipedID s = "")) as [?|?];
    [rewrite decide_False by tauto; reflexivity|].
  destruct (decide (PipedKeyFile s = "")) as [?|?];
    [rewrite decide_False by tauto; reflexivity|].
  destruct (decide (APIAddress s = "")) as [?|?];
    [rewrite decide_False by tauto; reflexivity|].
  destruct (decide (WebAddress s = "")) as [?|?];
    [rewrite decide_False by tauto; reflexivity|].
  destruct (decide (SyncInterval s < 0)%Z) as [Hneg|Hneg].
  - rewrite decide_True by tauto.
    cbn [spec_SealedSecretManagement set_SyncInterval].
    destruct (spec_SealedSecretManagement s) as [m|]; [|reflexivity].
    by destruct (SealedSecretManagement_Validate m) as [[e|]|msg].
  - rewrite decide_False by tauto.
    destruct (spec_SealedSecretManagement s) as [m|]; [|reflexivity].
    by destruct (SealedSecretManagement_Validate m) as [[e|]|msg].
Qed.

(** The result of [Validate] once the five required fields are set. *)
Lemma Validate_result_fields_set s :
  ProjectID s ≠ "" → PipedID s ≠ "" → PipedKeyFile s ≠ "" →
  APIAddress s ≠ "" → WebAddress s ≠ "" →
  (PipedSpec_Validate s).2 =
    match spec_SealedSecretManagement s with
    | Some m => SealedSecretManagement_Validate m
    | None => Returned None
    end.
Proof.
  intros. unfold config.PipedSpec_Validate.
  rewrite !decide_False by done.
  assert (Hssm : spec_SealedSecretManagement
            (if decide (SyncInterval s < 0)%Z
             then set_SyncInterval s time_Minute else s)
          = spec_SealedSecretManagement s) by (by case_decide).
  rewrite Hssm.
  destruct (spec_SealedSecretManagement s) as [m|]; [|reflexivity].
  by destruct (SealedSecretManagement_Validate m) as [[e|]|msg].
Qed.

(** The result of [Validate] when one of the five required fields is empty. *)
Lemma Validate_result_field_empty s :
  ProjectID s = "" ∨ PipedID s = "" ∨ PipedKeyFile s = ""
  ∨ APIAddress s = "" ∨ WebAddress s = "" →
  ∃ e, (PipedSpec_Validate s).2 = Returned (Some e).
Proof.
  intros Hempty. unfold config.PipedSpec_Validate.
  destruct (decide (ProjectID s = "")); [by eexists|].
  destruct (decide (PipedID s = "")); [by eexists|].
  destruct (decide (PipedKeyFile s = "")); [by eexists|].
  destruct (decide (APIAddress s = "")); [by eexists|].
  destruct (decide (WebAddress s = "")); [by eexists|].
  tauto.
Qed.

(** C5.  [Validate] returns an error when one of [ProjectID], [PipedID],
    [PipedKeyFile], [APIAddress], [WebAddress] is empty, and when the
    sealed-secret management is present and its own [Validate] returns an
    error; it returns nil when the five fields are set and the sealed-secret
    management is absent or valid. *)
Theorem Validate_result s :
  (ProjectID s = "" ∨ PipedID s = "" ∨ PipedKeyFile s = ""
   ∨ APIAddress s = "" ∨ WebAddress s = "" →
   ∃ e, (PipedSpec_Validate s).2 = Returned (Some e))
  ∧ (∀ m e,
       spec_SealedSecretManagement s = Some m →
       SealedSecretManagement_Validate m = Returned (Some e) →
       ∃ e', (PipedSpec_Validate s).2 = Returned (Some e'))
  ∧ (ProjectID s ≠ "" ∧ PipedID s ≠ "" ∧ PipedKeyFile s ≠ ""
     ∧ APIAddress s ≠ "" ∧ WebAddress s ≠ "" →
     spec_SealedSecretManagement s = None
     ∨ (∃ m, spec_SealedSecretManagement s = Some m
             ∧ SealedSecretManagement_Validate m = Returned None) →
     (PipedSpec_Validate s).2 = Returned None).
Proof.
  split; [apply Validate_result_field_empty|]. split.
  - intros m e Hm He.
    destruct (decide (ProjectID s ≠ "" ∧ PipedID s ≠ "" ∧ PipedKeyFile s ≠ ""
                      ∧ APIAddress s ≠ "" ∧ WebAddress s ≠ ""))
      as [(?&?&?&?&?)|Hempty].
    + exists e. rewrite Validate_result_fields_set by done. by rewrite Hm.
    + apply Validate_result_field_empty.
      destruct (decide (ProjectID s = "")); [auto|].
      destruct (decide (PipedID s = "")); [auto|].
      destruct (decide (PipedKeyFile s = "")); [auto|].
      destruct (decide (APIAddress s = "")); [auto|].
      destruct (decide (WebAddress s = "")); [auto 6|].
      tauto.
  - intros (?&?&?&?&?) Hssm. rewrite Validate_result_fields_set by done.
    destruct Hssm as [-> | (m & -> & Hm)]; done.
Qed.

(** C10.  Whatever [Validate] returns, every field of the receiver other than
    [SyncInterval] is as before, and [SyncInterval] differs from before only
    when it was negative. *)
Theorem Validate_frame s :
  ProjectID (PipedSpec_Validate s).1 = ProjectID s
  ∧ PipedID (PipedSpec_Validate s).1 = PipedID s
  ∧ PipedKeyFile (PipedSpec_Validate s).1 = PipedKeyFile s
  ∧ APIAddress (PipedSpec_Validate s).1 = APIAddress s
  ∧ WebAddress (PipedSpec_Validate s).1 = WebAddress s
  ∧ Git (PipedSpec_Validate s).1 = Git s
  ∧ Repositories (PipedSpec_Validate s).1 = Repositories s
  ∧ ChartRepositories (PipedSpec_Validate s).1 = ChartRepositories s
  ∧ CloudProviders (PipedSpec_Validate s).1 = CloudProviders s
  ∧ AnalysisProviders (PipedSpec_Validate s).1 = AnalysisProviders s
  ∧ ImageProviders (PipedSpec_Validate s).1 = ImageProviders s
  ∧ spec_Notifications (PipedSpec_Validate s).1 = spec_Notifications s
  ∧ spec_SealedSecretManagement (PipedSpec_Validate s).1
      = spec_SealedSecretManagement s
  ∧ (SyncInterval (PipedSpec_Validate s).1 ≠ SyncInterval s →
     (SyncInterval s < 0)%Z).
Proof.
  rewrite Validate_state. case_decide as Hcase.
  - destruct (set_SyncInterval_fields s time_Minute)
      as (?&?&?&?&?&?&?&?&?&?&?&?&?).
    repeat split; try done. intros _. apply Hcase.
  - repeat split; done.
Qed.

(** When the interval is not negative, [Validate] keeps it, zero included. *)
Lemma Validate_SyncInterval_kept s :
  (0 ≤ SyncInterval s)%Z →
  SyncInterval (PipedSpec_Validate s).1 = SyncInterval s.
Proof.
  intros Hnn. rewrite Validate_state. rewrite decide_False; [done|]. lia.
Qed.

(** A negative interval is replaced by one minute when [Validate] gets past
    the required fields. *)
Lemma Validate_SyncInterval_negative s :
  ProjectID s ≠ "" → PipedID s ≠ "" → PipedKeyFile s ≠ "" →
  APIAddress s ≠ "" → WebAddress s ≠ "" → (SyncInterval s < 0)%Z →
  SyncInterval (PipedSpec_Validate s).1 = 60000000000%Z.
Proof.
  intros. rewrite Validate_state. by rewrite decide_True.
Qed.

(** *** Decoding the providers *)

Context `{!Unmarshaler (@genericPipedCloudProvider CloudProviderType)}.
Context `{!Unmarshaler (@genericPipedImageProvider ImageProviderType)}.
Context `{!Unmarshaler CloudProviderKubernetesConfig}.
Context `{!Unmarshaler CloudProviderTerraformConfig}.
Context `{!Unmarshaler CloudProviderCloudRunConfig}.
Context `{!Unmarshaler CloudProviderLambdaConfig}.
Context `{!Unmarshaler ImageProviderDockerhubConfig}.
Context `{!Unmarshaler ImageProviderGCRConfig}.
Context `{!Unmarshaler ImageProviderECRConfig}.

Abbreviation PipedCloudProvider_UnmarshalJSON :=
  (config.PipedCloudProvider_UnmarshalJSON model_CloudProviderKubernetes
     model_CloudProviderTerraform model_CloudProviderCloudRun
     model_CloudProviderLambda zero_CloudProviderType).
Abbreviation PipedImageProvider_UnmarshalJSON :=
  (config.PipedImageProvider_UnmarshalJSON model_ImageProviderTypeDockerhub
     model_ImageProviderTypeGCR model_ImageProviderTypeECR
     zero_ImageProviderType).

(** What [json.Unmarshal(data, &gp)] leaves in the generic structs. *)
Abbreviation decoded_cloud data :=
  (json_Unmarshal data (zero_genericPipedCloudProvider zero_CloudProviderType)).
Abbreviation decoded_image data :=
  (json_Unmarshal data (zero_genericPipedImageProvider zero_ImageProviderType)).

(** A document that does not decode into the generic struct is refused and
    the receiver is left alone. *)
Lemma UnmarshalCloud_malformed p data e :
  (decoded_cloud data).2 = Some e →
  PipedCloudProvider_UnmarshalJSON p data = (p, Some e).
Proof.
  unfold config.PipedCloudProvider_UnmarshalJSON.
  destruct (decoded_cloud data) as [gp err]. simpl. by intros ->.
Qed.

Lemma UnmarshalImage_malformed p data e :
  (decoded_image data).2 = Some e →
  PipedImageProvider_UnmarshalJSON p data = (p, Some e).
Proof.
  unfold config.PipedImageProvider_UnmarshalJSON.
  destruct (decoded_image data) as [gp err]. simpl. by intros ->.
Qed.

(** The interval stored by [PipedImageProvider.UnmarshalJSON] once the
    document has been decoded into the generic struct. *)
Lemma UnmarshalImage_PullInterval p data gp :
  decoded_image data = (gp, None) →
  PullInterval (PipedImageProvider_UnmarshalJSON p data).1 =
    if decide (gip_PullInterval gp = 0)%Z then (time_Minute * 5)%Z
    else gip_PullInterval gp.
Proof.
  unfold config.PipedImageProvider_UnmarshalJSON. intros ->.
  destruct (decide (gip_Type gp = model_ImageProviderTypeDockerhub));
    [by destruct (unmarshal_config _ _)|].
  destruct (decide (gip_Type gp = model_ImageProviderTypeGCR));
    [by destruct (unmarshal_config _ _)|].
  destruct (decide (gip_Type gp = model_ImageProviderTypeECR));
    [by destruct (unmarshal_config _ _)|].
  reflexivity.
Qed.

(** C4.  A provider document whose [type] is none of the recognised ones is
    refused: [PipedCloudProvider.UnmarshalJSON] returns an error for a type
    outside Kubernetes, Terraform, CloudRun, Lambda, and
    [PipedImageProvider.UnmarshalJSON] for a type outside Dockerhub, GCR,
    ECR. *)
Theorem UnmarshalJSON_unknown_type data :
  (∀ p,
     gcp_Type (decoded_cloud data).1
       ∉ [model_CloudProviderKubernetes; model_CloudProviderTerraform;
          model_CloudProviderCloudRun; model_CloudProviderLambda] →
     ∃ e, (PipedCloudProvider_UnmarshalJSON p data).2 = Some e)
  ∧ (∀ p,
       gip_Type (decoded_image data).1
         ∉ [model_ImageProviderTypeDockerhub; model_ImageProviderTypeGCR;
            model_ImageProviderTypeECR] →
       ∃ e, (PipedImageProvider_UnmarshalJSON p data).2 = Some e).
Proof.
  split; intros p Hunknown.
  - unfold config.PipedCloudProvider_UnmarshalJSON.
    destruct (decoded_cloud data) as [gp [e|]]; simpl in *; [by eexists|].
    rewrite !not_elem_of_cons in Hunknown.
    destruct Hunknown as (?&?&?&?&_).
    rewrite !decide_False by done. by eexists.
  - unfold config.PipedImageProvider_UnmarshalJSON.
    destruct (decoded_image data) as [gp [e|]]; simpl in *; [by eexists|].
    rewrite !not_elem_of_cons in Hunknown.
    destruct Hunknown as (?&?&?&_).
    rewrite !decide_False by done. by eexists.
Qed.

(** C7.  For an image-provider document that decodes, [PullInterval] is five
    minutes (300 000 000 000 ns) when [pullInterval] is absent or zero, and
    the given value otherwise. *)
Theorem UnmarshalJSON_PullInterval p data gp :
  decoded_image data = (gp, None) →
  (gip_PullInterval gp = 0%Z →
   PullInterval (PipedImageProvider_UnmarshalJSON p data).1 = 300000000000%Z)
  ∧ (gip_PullInterval gp ≠ 0%Z →
     PullInterval (PipedImageProvider_UnmarshalJSON p data).1 = gip_PullInterval gp).
Proof.
  intros Hdec. rewrite (UnmarshalImage_PullInterval _ _ _ Hdec). split.
  - intros Hzero. by rewrite decide_True.
  - intros Hgiven. by rewrite decide_False.
Qed.

End piped_properties.

(** * The code on particular configurations *)

(** C6.  A configuration whose [SyncInterval] was left unset passes
    [Validate] and still has the interval zero afterwards, not one minute:
    the guard of the default is [s.SyncInterval < 0], which zero does not
    satisfy. *)
Theorem Validate_unset_SyncInterval :
  let s := sample.piped_spec 0 [] None in
  let after := config.PipedSpec_Validate sample.SealingKey sample.GCPKMS id s in
  config.SyncInterval s = 0%Z
  ∧ after = (s, Returned None)
  ∧ config.SyncInterval after.1 ≠ config.time_Minute.
Proof.
  cbv zeta.
  split; [reflexivity|]. split; [reflexivity|].
  vm_compute. discriminate.
Qed.

(** C8 as stated fails: on a configuration that lists two providers named
    ["kubernetes-default"], [EnableDefaultKubernetesCloudProvider] returns at
    the first of them and the list keeps both. *)
Lemma EnableDefault_two_named_default :
  let s := sample.piped_spec 0
             [sample.default_provider; sample.default_provider] None in
  let s' := config.PipedSpec_EnableDefaultKubernetesCloudProvider
              sample.Kubernetes s in
  config.CloudProviders s'
    = [sample.default_provider; sample.default_provider]
  ∧ length (filter (λ cp, config.cp_Name cp = "kubernetes-default")
              (config.CloudProviders s')) = 2
  ∧ length (filter (λ cp, config.cp_Name cp = "kubernetes-default")
              (config.CloudProviders s')) ≠ 1.
Proof.
  split; [reflexivity|]. split; [reflexivity|].
  vm_compute. discriminate.
Qed.

(** * Instances on the sample values *)

(** ["WAIT"] is bound in [sample.wait_registry]; registering it again fails
    and keeps the binding. *)
Lemma Register_bound_fails_witness :
  executor.bound sample.wait_registry "WAIT" sample.wait_factory
  ∧ (executor.registry_Register sample.stage_String sample.wait_registry
       "WAIT" None).2
    = Returned (Some "executor for WAIT stage has already registered")
  ∧ executor.bound
      (executor.registry_Register sample.stage_String sample.wait_registry
         "WAIT" None).1
      "WAIT" sample.wait_factory.
Proof.
  assert (Hb : executor.bound sample.wait_registry "WAIT" sample.wait_factory)
    by reflexivity.
  split; [exact Hb|].
  destruct (Register_bound_fails sample.stage_String sample.wait_registry
              "WAIT" sample.wait_factory None Hb) as (Herr & _ & Hkeep).
  split; [exact Herr | exact Hkeep].
Defined.

(** ["APPROVAL"] is not bound in [sample.wait_registry]. *)
Lemma Executor_unbound_fails_witness :
  executor.unbound sample.wait_registry "APPROVAL"
  ∧ executor.registry_Executor sample.stage_String sample.wait_registry
      "APPROVAL" 7
    = (sample.wait_registry,
       Returned (None, Some "no registered executor for stage APPROVAL")).
Proof.
  assert (Hu : executor.unbound sample.wait_registry "APPROVAL")
    by (vm_compute; reflexivity).
  split; [exact Hu|].
  exact (Executor_unbound_fails sample.stage_String sample.wait_registry
           "APPROVAL" 7 Hu).
Defined.

(** A document of type ["AZURE"] is no cloud provider and one of type
    ["QUAY"] is no image provider. *)
Lemma UnmarshalJSON_unknown_type_witness :
  (∃ e, (sample.UnmarshalCloud sample.azure_cloud_document
           sample.no_cloud_provider []).2 = Some e)
  ∧ (∃ e, (sample.UnmarshalImage sample.quay_image_document
             sample.no_image_provider []).2 = Some e).
Proof.
  destruct (@UnmarshalJSON_unknown_type string string _ _
              sample.Kubernetes sample.Terraform sample.CloudRun sample.Lambda
              sample.Dockerhub sample.GCR sample.ECR "" ""
              sample.azure_cloud_document sample.quay_image_document
              sample.empty_document sample.empty_document
              sample.empty_document sample.empty_document
              sample.empty_document sample.empty_document
              sample.empty_document []) as [Hcloud Himage].
  split.
  - apply (Hcloud sample.no_cloud_provider). intros Hin.
    repeat (apply elem_of_cons in Hin as [Heq|Hin];
            [vm_compute in Heq; discriminate Heq|]).
    by apply elem_of_nil in Hin.
  - apply (Himage sample.no_image_provider). intros Hin.
    repeat (apply elem_of_cons in Hin as [Heq|Hin];
            [vm_compute in Heq; discriminate Heq|]).
    by apply elem_of_nil in Hin.
Defined.

(** A document without [pullInterval] gets five minutes; one that asks for
    thirty seconds keeps them. *)
Lemma UnmarshalJSON_PullInterval_witness :
  config.PullInterval
    (sample.UnmarshalImage sample.hub_image_document
       sample.no_image_provider []).1 = 300000000000%Z
  ∧ config.PullInterval
      (sample.UnmarshalImage sample.gcr_image_document
         sample.no_image_provider []).1 = 30000000000%Z.
Proof.
  split.
  - refine (proj1 (@UnmarshalJSON_PullInterval string _
                     sample.Dockerhub sample.GCR sample.ECR ""
                     sample.hub_image_document sample.empty_document
                     sample.empty_document sample.empty_document
                     sample.no_image_provider [] _ eq_refl) _).
    reflexivity.
  - refine (proj2 (@UnmarshalJSON_PullInterval string _
                     sample.Dockerhub sample.GCR sample.ECR ""
                     sample.gcr_image_document sample.empty_document
                     sample.empty_document sample.empty_document
                     sample.no_image_provider [] _ eq_refl) _).
    vm_compute. discriminate.
Defined.

(** A configuration without a project, one whose sealing key lacks the public
    key, and a complete one. *)
Lemma Validate_result_witness :
  (∃ e, (sample.Validate sample.piped_spec_without_project).2
        = Returned (Some e))
  ∧ (∃ e, (sample.Validate
             (sample.piped_spec 0 []
                (Some sample.sealing_key_without_public))).2
          = Returned (Some e))
  ∧ (sample.Validate
       (sample.piped_spec 0 [] (Some sample.sealing_key_complete))).2
    = Returned None.
Proof.
  split; [|split].
  - apply (proj1 (Validate_result sample.SealingKey sample.GCPKMS id
                    sample.piped_spec_without_project)).
    left. reflexivity.
  - apply (proj1 (proj2 (Validate_result sample.SealingKey sample.GCPKMS id
                           (sample.piped_spec 0 []
                              (Some sample.sealing_key_without_public))))
             sample.sealing_key_without_public "publicKeyFile must be set").
    + reflexivity.
    + reflexivity.
  - apply (proj2 (proj2 (Validate_result sample.SealingKey sample.GCPKMS id
                           (sample.piped_spec 0 []
                              (Some sample.sealing_key_complete))))).
    + repeat split; discriminate.
    + right. exists sample.sealing_key_complete. split; reflexivity.
Defined.

(** A configuration with a negative interval: [Validate] changes it. *)
Lemma Validate_frame_witness :
  config.SyncInterval (sample.Validate (sample.piped_spec (-5) [] None)).1
    ≠ config.SyncInterval (sample.piped_spec (-5) [] None)
  ∧ (config.SyncInterval (sample.piped_spec (-5) [] None) < 0)%Z.
Proof.
  assert (Hchanged :
    config.SyncInterval (sample.Validate (sample.piped_spec (-5) [] None)).1
      ≠ config.SyncInterval (sample.piped_spec (-5) [] None))
    by (vm_compute; discriminate).
  split; [exact Hchanged|].
  destruct (Validate_frame sample.SealingKey sample.GCPKMS id
              (sample.piped_spec (-5) [] None))
    as (_&_&_&_&_&_&_&_&_&_&_&_&_&Hneg).
  exact (Hneg Hchanged).
Defined.

(** A configuration that already lists the default provider. *)
Lemma EnableDefault_idempotent_witness :
  let s := sample.piped_spec 0
             [sample.terraform_provider; sample.default_provider] None in
  let s' := config.PipedSpec_EnableDefaultKubernetesCloudProvider
              sample.Kubernetes s in
  config.CloudProviders s' = config.CloudProviders s
  ∧ length (filter (λ cp, config.cp_Name cp = "kubernetes-default")
              (config.CloudProviders s')) = 1.
Proof.
  intros s s'.
  destruct (EnableDefault_idempotent sample.Kubernetes s)
    as (_ & Hsame & _ & Hone).
  split.
  - apply Hsame. exists sample.default_provider. split; [|reflexivity].
    right. left.
  - apply Hone. vm_compute. lia.
Defined.

(** The default provider is found behind a terraform provider. *)
Lemma HasCloudProvider_iff_FindCloudProvider_witness :
  let s := sample.piped_spec 0
             [sample.terraform_provider; sample.default_provider] None in
  let found := config.PipedSpec_FindCloudProvider "" s "kubernetes-default"
                 sample.Kubernetes in
  found.2 = true
  ∧ ∃ l1 l2,
      config.CloudProviders s = l1 ++ found.1 :: l2
      ∧ config.cp_Name found.1 = "kubernetes-default"
      ∧ config.cp_Type found.1 = sample.Kubernetes
      ∧ ∀ q, q ∈ l1 →
          ¬ (config.cp_Name q = "kubernetes-default"
             ∧ config.cp_Type q = sample.Kubernetes).
Proof.
  intros s found.
  assert (Hfound : found.2 = true) by reflexivity.
  split; [exact Hfound|].
  exact (proj2 (HasCloudProvider_iff_FindCloudProvider "" s
                  "kubernetes-default" sample.Kubernetes) Hfound).
Defined.

(** * Further properties of the executor registry *)

Section registry_composition.
Import executor.

Context {Stage : Type} `{Countable Stage}.
Context {Input Executor : Type}.
Variable stage_String : Stage → string.

Abbreviation registry_Register := (executor.registry_Register stage_String).
Abbreviation registry_Executor := (executor.registry_Executor stage_String).
Abbreviation registry := (@registry Stage _ _ Input Executor).
Abbreviation Factory := (@Factory Input Executor).

Implicit Types (r : registry) (k : Stage) (f : Factory) (i : Input).
Implicit Types (g : gmap Stage Factory).

(** A registration of a free kind in an allocated map. *)
Lemma registry_Register_free r g k f :
  factories r = Some g → unbound r k →
  registry_Register r k f = (mkRegistry (Some (<[k := f]> g)), Returned None).
Proof.
  unfold executor.unbound, executor.registry_Register. intros Hg Hfree.
  rewrite Hfree, Hg. reflexivity.
Qed.

(** X1.  The three outcomes of [Register] are decided by the registry alone:
    it returns nil exactly when the map is allocated and the kind is free, it
    returns an error exactly when the kind is bound, and it panics exactly
    when the kind is free and the map is the nil map. *)
Theorem registry_Register_outcome r k f :
  ((registry_Register r k f).2 = Returned None
   ↔ (∃ g, factories r = Some g) ∧ unbound r k)
  ∧ ((∃ e, (registry_Register r k f).2 = Returned (Some e))
     ↔ ∃ f0, bound r k f0)
  ∧ ((∃ msg, (registry_Register r k f).2 = Panicked msg)
     ↔ factories r = None).
Proof.
  unfold executor.registry_Register, executor.bound, executor.unbound.
  destruct r as [[g|]]; simpl.
  - destruct (g !! k) as [f0|] eqn:Hk; simpl.
    + split; [|split].
      * split; [discriminate | intros [_ ?]; discriminate].
      * split; [by exists f0 | by eexists].
      * split; [intros [? ?]; discriminate | discriminate].
    + split; [|split].
      * split; [by eauto | done].
      * split; [intros [? ?]; discriminate | intros [? ?]; discriminate].
      * split; [intros [? ?]; discriminate | discriminate].
  - split; [|split].
    + split; [discriminate | intros [[? ?] _]; discriminate].
    + split; [intros [? ?]; discriminate | intros [? ?]; discriminate].
    + split; [done | by eexists].
Qed.

(** X2.  On an allocated registry, registering a free kind with a factory
    and asking for that kind gives what the factory returns for the input,
    with a nil error. *)
Theorem registry_Register_Executor_round_trip r g k
    (fn : Input → option Executor) i :
  factories r = Some g → unbound r k →
  (registry_Register r k (Some fn)).2 = Returned None
  ∧ (registry_Executor (registry_Register r k (Some fn)).1 k i).2
    = Returned (fn i, None).
Proof.
  intros Hg Hfree. rewrite (registry_Register_free r g k _ Hg Hfree).
  split; [reflexivity|].
  unfold executor.registry_Executor. cbn [fst factories map_index].
  by rewrite lookup_insert_eq.
Qed.

(** X3.  Whatever it returns, [Register(k, f)] keeps every binding the
    registry has and gives no kind other than [k] a binding. *)
Theorem registry_Register_preserves r k f :
  (∀ k' f', bound r k' f' → bound (registry_Register r k f).1 k' f')
  ∧ (∀ k', k' ≠ k →
       map_index (factories (registry_Register r k f).1) k'
       = map_index (factories r) k').
Proof.
  unfold executor.registry_Register, executor.bound.
  destruct r as [[g|]]; simpl; [|by split].
  destruct (g !! k) as [f0|] eqn:Hk; simpl; [by split|].
  split.
  - intros k' f' Hb. destruct (decide (k = k')) as [->|Hne]; [congruence|].
    by rewrite lookup_insert_ne.
  - intros k' Hne. by rewrite lookup_insert_ne.
Qed.

(** X4.  [Register] does not look at the factory: a nil factory is accepted
    for a free kind, and [Executor] for that kind then panics on the call of
    the nil func instead of returning an error. *)
Theorem registry_Register_nil_factory r g k i :
  factories r = Some g → unbound r k →
  (registry_Register r k None).2 = Returned None
  ∧ (registry_Executor (registry_Register r k None).1 k i).2
    = Panicked panic_nil_deref.
Proof.
  intros Hg Hfree. rewrite (registry_Register_free r g k _ Hg Hfree).
  split; [reflexivity|].
  unfold executor.registry_Executor. cbn [fst factories map_index].
  by rewrite lookup_insert_eq.
Qed.

(** X5.  Two free, distinct kinds can be registered one after the other on an
    allocated registry; afterwards each kind answers with its own factory,
    and the registry does not depend on the order of the two calls. *)
Theorem registry_Register_two_kinds r g k1 k2
    (f1 f2 : Input → option Executor) i :
  factories r = Some g → unbound r k1 → unbound r k2 → k1 ≠ k2 →
  let r12 := (registry_Register (registry_Register r k1 (Some f1)).1
                k2 (Some f2)).1 in
  let r21 := (registry_Register (registry_Register r k2 (Some f2)).1
                k1 (Some f1)).1 in
  (registry_Executor r12 k1 i).2 = Returned (f1 i, None)
  ∧ (registry_Executor r12 k2 i).2 = Returned (f2 i, None)
  ∧ r12 = r21.
Proof.
  intros Hg Hk1 Hk2 Hne. cbv zeta.
  rewrite (registry_Register_free r g k1 _ Hg Hk1).
  rewrite (registry_Register_free r g k2 _ Hg Hk2).
  unfold executor.unbound in Hk1, Hk2. rewrite Hg in Hk1, Hk2.
  simpl in Hk1, Hk2.
  cbn [fst].
  rewrite (registry_Register_free (mkRegistry (Some (<[k1 := Some f1]> g)))
             (<[k1 := Some f1]> g) k2 _ eq_refl);
    [|unfold executor.unbound; simpl; by rewrite lookup_insert_ne].
  rewrite (registry_Register_free (mkRegistry (Some (<[k2 := Some f2]> g)))
             (<[k2 := Some f2]> g) k1 _ eq_refl);
    [|unfold executor.unbound; simpl; by rewrite lookup_insert_ne].
  unfold executor.registry_Executor. cbn [fst factories map_index].
  rewrite lookup_insert_ne, !lookup_insert_eq by done.
  split; [reflexivity|]. split; [reflexivity|].
  f_equal. f_equal. by apply insert_insert_ne.
Qed.

End registry_composition.

(** * Further properties of the piped configuration *)

Section piped_validation.
Import config.

Context {CloudProviderType AnalysisProviderType : Type}.
Context {ImageProviderType SealedSecretManagementType : Type}.
Context `{!EqDecision SealedSecretManagementType}.

Variables model_SealedSecretManagementSealingKey
          model_SealedSecretManagementGCPKMS
  : SealedSecretManagementType.
Variable SealedSecretManagementType_String
  : SealedSecretManagementType → string.

Abbreviation PipedSpec :=
  (@PipedSpec CloudProviderType AnalysisProviderType ImageProviderType
     SealedSecretManagementType).
Abbreviation SealedSecretManagement :=
  (@SealedSecretManagement SealedSecretManagementType).
Abbreviation PipedSpec_Validate :=
  (config.PipedSpec_Validate model_SealedSecretManagementSealingKey
     model_SealedSecretManagementGCPKMS SealedSecretManagementType_String).
Abbreviation SealedSecretManagement_Validate :=
  (config.SealedSecretManagement_Validate
     model_SealedSecretManagementSealingKey
     model_SealedSecretManagementGCPKMS SealedSecretManagementType_String).

Implicit Types (s : PipedSpec) (m : SealedSecretManagement).

(** The five required fields are set. *)
Abbreviation required_set s :=
  (ProjectID s ≠ "" ∧ PipedID s ≠ "" ∧ PipedKeyFile s ≠ ""
   ∧ APIAddress s ≠ "" ∧ WebAddress s ≠ "").

Lemma required_set_dec s : required_set s ∨
  (ProjectID s = "" ∨ PipedID s = "" ∨ PipedKeyFile s = ""
   ∨ APIAddress s = "" ∨ WebAddress s = "").
Proof.
  destruct (decide (ProjectID s = "")); [tauto|].
  destruct (decide (PipedID s = "")); [tauto|].
  destruct (decide (PipedKeyFile s = "")); [tauto|].
  destruct (decide (APIAddress s = "")); [tauto|].
  destruct (decide (WebAddress s = "")); tauto.
Qed.

(** [Validate] returns nil or panics only past the required fields. *)
Lemma Validate_past_required s :
  (∀ e, (PipedSpec_Validate s).2 ≠ Returned (Some e)) → required_set s.
Proof.
  intros Hok. destruct (required_set_dec s) as [?|Hempty]; [done|].
  destruct (Validate_result_field_empty
              model_SealedSecretManagementSealingKey
              model_SealedSecretManagementGCPKMS
              SealedSecretManagementType_String s Hempty) as [e He].
  by destruct (Hok e).
Qed.

(** X6.  [Validate] is idempotent: a second call on the validated
    configuration returns what the first call returned and changes nothing
    more. *)
Theorem PipedSpec_Validate_idempotent s :
  PipedSpec_Validate (PipedSpec_Validate s).1
    = ((PipedSpec_Validate s).1, (PipedSpec_Validate s).2).
Proof.
  destruct (required_set_dec s) as [(?&?&?&?&?)|Hempty].
  - assert (Hs1 : (PipedSpec_Validate s).1 =
              if decide (SyncInterval s < 0)%Z
              then set_SyncInterval s time_Minute else s).
    { rewrite Validate_state.
      destruct (decide (SyncInterval s < 0)%Z);
        [by rewrite decide_True | rewrite decide_False by tauto; done]. }
    rewrite (surjective_pairing (PipedSpec_Validate (PipedSpec_Validate s).1)).
    f_equal.
    + rewrite Validate_state. rewrite decide_False; [done|].
      rewrite Hs1. intros (_&_&_&_&_&Hneg).
      destruct (decide (SyncInterval s < 0)%Z); simpl in Hneg;
        [by vm_compute in Hneg | done].
    + rewrite (Validate_result_fields_set _ _ _ s) by done.
      rewrite Hs1.
      destruct (decide (SyncInterval s < 0)%Z);
        by rewrite Validate_result_fields_set.
  - assert (Hs1 : (PipedSpec_Validate s).1 = s).
    { rewrite Validate_state. rewrite decide_False; [done | tauto]. }
    destruct (PipedSpec_Validate s) as [s1 res] eqn:Hv.
    simpl in Hs1. subst s1. simpl. exact Hv.
Qed.

(** X7.  A configuration that [Validate] accepts never has a negative
    [SyncInterval] afterwards. *)
Theorem PipedSpec_Validate_interval_not_negative s :
  (PipedSpec_Validate s).2 = Returned None →
  (0 ≤ SyncInterval (PipedSpec_Validate s).1)%Z.
Proof.
  intros Hok.
  assert (Hreq : required_set s).
  { apply Validate_past_required. intros e. by rewrite Hok. }
  rewrite Validate_state.
  destruct (decide (SyncInterval s < 0)%Z) as [Hneg|Hneg].
  - rewrite decide_True by tauto. by vm_compute.
  - rewrite decide_False by tauto. lia.
Qed.

(** X8.  [Validate] may write the receiver and still fail: when the required
    fields are set, the interval is negative and the sealed-secret management
    is refused, the error of the sealed-secret management is returned and the
    interval has already become one minute; when a required field is
    missing, a negative interval is left as it is. *)
Theorem PipedSpec_Validate_error_after_write s m e :
  (SyncInterval s < 0)%Z →
  spec_SealedSecretManagement s = Some m →
  SealedSecretManagement_Validate m = Returned (Some e) →
  (required_set s →
   PipedSpec_Validate s = (set_SyncInterval s time_Minute, Returned (Some e)))
  ∧ (¬ required_set s →
     (PipedSpec_Validate s).1 = s
     ∧ ∃ e', (PipedSpec_Validate s).2 = Returned (Some e')).
Proof.
  intros Hneg Hm He. split.
  - intros (?&?&?&?&?).
    rewrite (surjective_pairing (PipedSpec_Validate s)). f_equal.
    + rewrite Validate_state. by rewrite decide_True.
    + rewrite Validate_result_fields_set by done. by rewrite Hm.
  - intros Hnot. split.
    + rewrite Validate_state. rewrite decide_False; [done | tauto].
    + apply Validate_result_field_empty.
      destruct (required_set_dec s); tauto.
Qed.

(** X9.  [SealedSecretManagement.Validate] returns nil exactly for a sealing
    key with both key files, or a GCP KMS configuration with its key name and
    both service-account files; the type decides which of the two
    configurations is read. *)
Theorem SealedSecretManagement_Validate_nil m :
  SealedSecretManagement_Validate m = Returned None
  ↔ (ssm_Type m = model_SealedSecretManagementSealingKey
     ∧ ∃ k, SealingKeyConfig m = Some k
            ∧ PrivateKeyFile k ≠ "" ∧ PublicKeyFile k ≠ "")
    ∨ (ssm_Type m ≠ model_SealedSecretManagementSealingKey
       ∧ ssm_Type m = model_SealedSecretManagementGCPKMS
       ∧ ∃ k, GCPKMSConfig m = Some k
              ∧ KeyName k ≠ "" ∧ DecryptServiceAccountFile k ≠ ""
              ∧ EncryptServiceAccountFile k ≠ "").
Proof.
  unfold config.SealedSecretManagement_Validate.
  destruct (decide (ssm_Type m = model_SealedSecretManagementSealingKey))
    as [Hsk|Hsk].
  - unfold SealedSecretManagementSealingKey_Validate.
    destruct (SealingKeyConfig m) as [k|].
    + destruct (decide (PrivateKeyFile k = "")) as [Hpriv|Hpriv].
      * split; [discriminate|]. intros [(_&k'&[= <-]&?&_)|(?&_)]; done.
      * destruct (decide (PublicKeyFile k = "")) as [Hpub|Hpub].
        -- split; [discriminate|]. intros [(_&k'&[= <-]&_&?)|(?&_)]; done.
        -- split; [|done]. intros _. left. split; [done|]. by exists k.
    + split; [discriminate|]. intros [(_&k'&?&_)|(?&_)]; done.
  - destruct (decide (ssm_Type m = model_SealedSecretManagementGCPKMS))
      as [Hkms|Hkms].
    + unfold SealedSecretManagementGCPKMS_Validate.
      destruct (GCPKMSConfig m) as [k|].
      * destruct (decide (KeyName k = "")) as [Hn|Hn].
        { split; [discriminate|].
          intros [(?&_)|(_&_&k'&[= <-]&?&_)]; done. }
        destruct (decide (DecryptServiceAccountFile k = "")) as [Hd|Hd].
        { split; [discriminate|].
          intros [(?&_)|(_&_&k'&[= <-]&_&?&_)]; done. }
        destruct (decide (EncryptServiceAccountFile k = "")) as [He|He].
        { split; [discriminate|].
          intros [(?&_)|(_&_&k'&[= <-]&_&_&?)]; done. }
        split; [|done]. intros _. right. split; [done|]. split; [done|].
        by exists k.
      * split; [discriminate|]. intros [(?&_)|(_&_&k'&?&_)]; done.
    + split; [discriminate|]. intros [(?&_)|(_&?&_)]; done.
Qed.

(** X10.  [SealedSecretManagement.Validate] panics exactly when the
    configuration that the type selects is the nil pointer; a type that is
    neither sealing key nor GCP KMS is refused with an error whatever the
    pointers are. *)
Theorem SealedSecretManagement_Validate_panics m :
  ((∃ msg, SealedSecretManagement_Validate m = Panicked msg)
   ↔ (ssm_Type m = model_SealedSecretManagementSealingKey
      ∧ SealingKeyConfig m = None)
     ∨ (ssm_Type m ≠ model_SealedSecretManagementSealingKey
        ∧ ssm_Type m = model_SealedSecretManagementGCPKMS
        ∧ GCPKMSConfig m = None))
  ∧ (ssm_Type m ≠ model_SealedSecretManagementSealingKey →
     ssm_Type m ≠ model_SealedSecretManagementGCPKMS →
     SealedSecretManagement_Validate m
     = Returned (Some ("unsupported sealed secret management type: "
                         +:+ SealedSecretManagementType_String (ssm_Type m)))).
Proof.
  unfold config.SealedSecretManagement_Validate. split.
  - destruct (decide (ssm_Type m = model_SealedSecretManagementSealingKey))
      as [Hsk|Hsk].
    + unfold SealedSecretManagementSealingKey_Validate.
      destruct (SealingKeyConfig m) as [k|].
      * split; [|intros [(_&?)|(?&_)]; done].
        intros [msg Hp]. by repeat case_decide.
      * split; [by left | by eexists].
    + destruct (decide (ssm_Type m = model_SealedSecretManagementGCPKMS))
        as [Hkms|Hkms].
      * unfold SealedSecretManagementGCPKMS_Validate.
        destruct (GCPKMSConfig m) as [k|].
        -- split; [|intros [(?&_)|(_&_&?)]; done].
           intros [msg Hp]. by repeat case_decide.
        -- split; [by right | by eexists].
      * split; [intros [? ?]; discriminate|].
        intros [(?&_)|(_&?&_)]; done.
  - intros Hsk Hkms. by rewrite !decide_False.
Qed.

End piped_validation.

Section piped_decoding.
Import config.

Context {CloudProviderType AnalysisProviderType : Type}.
Context {ImageProviderType SealedSecretManagementType : Type}.
Context `{!EqDecision CloudProviderType}.
Context `{!EqDecision AnalysisProviderType}.
Context `{!EqDecision ImageProviderType}.
Context `{!EqDecision SealedSecretManagementType}.

Variables model_CloudProviderKubernetes model_CloudProviderTerraform
          model_CloudProviderCloudRun model_CloudProviderLambda
  : CloudProviderType.
Variables model_AnalysisProviderPrometheus model_AnalysisProviderDatadog
          model_AnalysisProviderStackdriver
  : AnalysisProviderType.
Variables model_ImageProviderTypeDockerhub model_ImageProviderTypeGCR
          model_ImageProviderTypeECR
  : ImageProviderType.
Variables model_SealedSecretManagementSealingKey
          model_SealedSecretManagementGCPKMS
  : SealedSecretManagementType.
Variable SealedSecretManagementType_String
  : SealedSecretManagementType → string.
Variable zero_CloudProviderType : CloudProviderType.
Variable zero_AnalysisProviderType : AnalysisProviderType.
Variable zero_ImageProviderType : ImageProviderType.
Variable zero_SealedSecretManagementType : SealedSecretManagementType.

Context `{!Unmarshaler (@genericPipedCloudProvider CloudProviderType)}.
Context `{!Unmarshaler (@genericPipedAnalysisProvider AnalysisProviderType)}.
Context `{!Unmarshaler (@genericPipedImageProvider ImageProviderType)}.
Context `{!Unmarshaler
            (@genericSealedSecretManagement SealedSecretManagementType)}.
Context `{!Unmarshaler CloudProviderKubernetesConfig}.
Context `{!Unmarshaler CloudProviderTerraformConfig}.
Context `{!Unmarshaler CloudProviderCloudRunConfig}.
Context `{!Unmarshaler CloudProviderLambdaConfig}.
Context `{!Unmarshaler AnalysisProviderPrometheusConfig}.
Context `{!Unmarshaler AnalysisProviderDatadogConfig}.
Context `{!Unmarshaler AnalysisProviderStackdriverConfig}.
Context `{!Unmarshaler ImageProviderDockerhubConfig}.
Context `{!Unmarshaler ImageProviderGCRConfig}.
Context `{!Unmarshaler ImageProviderECRConfig}.
Context `{!Unmarshaler SealedSecretManagementSealingKey}.
Context `{!Unmarshaler SealedSecretManagementGCPKMS}.

Abbreviation PipedCloudProvider_UnmarshalJSON :=
  (config.PipedCloudProvider_UnmarshalJSON model_CloudProviderKubernetes
     model_CloudProviderTerraform model_CloudProviderCloudRun
     model_CloudProviderLambda zero_CloudProviderType).
Abbreviation PipedAnalysisProvider_UnmarshalJSON :=
  (config.PipedAnalysisProvider_UnmarshalJSON zero_AnalysisProviderType
     model_AnalysisProviderPrometheus model_AnalysisProviderDatadog
     model_AnalysisProviderStackdriver).
Abbreviation PipedImageProvider_UnmarshalJSON :=
  (config.PipedImageProvider_UnmarshalJSON model_ImageProviderTypeDockerhub
     model_ImageProviderTypeGCR model_ImageProviderTypeECR
     zero_ImageProviderType).
Abbreviation SealedSecretManagement_UnmarshalJSON :=
  (config.SealedSecretManagement_UnmarshalJSON
     model_SealedSecretManagementSealingKey
     model_SealedSecretManagementGCPKMS SealedSecretManagementType_String
     zero_SealedSecretManagementType).
Abbreviation SealedSecretManagement_Validate :=
  (config.SealedSecretManagement_Validate
     model_SealedSecretManagementSealingKey
     model_SealedSecretManagementGCPKMS SealedSecretManagementType_String).
Abbreviation DefaultKubernetesCloudProvider :=
  (config.DefaultKubernetesCloudProvider model_CloudProviderKubernetes).
Abbreviation zero_PipedCloudProvider :=
  (config.zero_PipedCloudProvider zero_CloudProviderType).

Abbreviation decoded_cloud data :=
  (json_Unmarshal data (zero_genericPipedCloudProvider zero_CloudProviderType)).
Abbreviation decoded_analysis data :=
  (json_Unmarshal data
     (zero_genericPipedAnalysisProvider zero_AnalysisProviderType)).
Abbreviation decoded_image data :=
  (json_Unmarshal data (zero_genericPipedImageProvider zero_ImageProviderType)).
Abbreviation decoded_sealed data :=
  (json_Unmarshal data
     (zero_genericSealedSecretManagement zero_SealedSecretManagementType)).

(** A missing or empty [config] section is not decoded at all. *)
Lemma unmarshal_config_empty {A : Type} `{!Unmarshaler A} (zero : A) :
  unmarshal_config [] zero = (zero, None).
Proof. reflexivity. Qed.

(** X11.  [SealedSecretManagement.UnmarshalJSON] refuses a document whose
    type is neither sealing key nor GCP KMS; the receiver then keeps both of
    its configuration pointers and takes the type of the document. *)
Theorem SealedSecretManagement_UnmarshalJSON_unknown_type p data g :
  decoded_sealed data = (g, None) →
  gssm_Type g ≠ model_SealedSecretManagementSealingKey →
  gssm_Type g ≠ model_SealedSecretManagementGCPKMS →
  SealedSecretManagement_UnmarshalJSON p data
  = (mkSealedSecretManagement (gssm_Type g) (SealingKeyConfig p)
       (GCPKMSConfig p),
     Some ("unsupported sealed secret management type: "
             +:+ SealedSecretManagementType_String (gssm_Type g))).
Proof.
  intros Hdec Hsk Hkms. unfold config.SealedSecretManagement_UnmarshalJSON.
  rewrite Hdec. by rewrite !decide_False.
Qed.

(** X12.  A sealed-secret management that [UnmarshalJSON] decoded without an
    error never makes [Validate] panic: the configuration that [Validate]
    reads for the decoded type has been allocated by the decoder. *)
Theorem SealedSecretManagement_decoded_Validate_returns p data :
  (SealedSecretManagement_UnmarshalJSON p data).2 = None →
  ∃ res,
    SealedSecretManagement_Validate
      (SealedSecretManagement_UnmarshalJSON p data).1 = Returned res.
Proof.
  unfold config.SealedSecretManagement_UnmarshalJSON,
    config.SealedSecretManagement_Validate.
  destruct (decoded_sealed data) as [g [e|]]; [discriminate|].
  destruct (decide (gssm_Type g = model_SealedSecretManagementSealingKey))
    as [Hsk|Hsk].
  - destruct (unmarshal_config _ _) as [c err]. simpl. intros _.
    rewrite decide_True by done. simpl. repeat case_decide; by eexists.
  - destruct (decide (gssm_Type g = model_SealedSecretManagementGCPKMS))
      as [Hkms|Hkms]; [|discriminate].
    destruct (unmarshal_config _ _) as [c err]. simpl. intros _.
    rewrite decide_False, decide_True by done. simpl.
    repeat case_decide; by eexists.
Qed.

(** X13.  A sealed-secret document without a [config] section never passes
    [Validate] once decoded: for a known type the configuration is the zero
    one, so a key file or the key name is missing, and an unknown type is
    refused. *)
Theorem SealedSecretManagement_without_config_invalid p data g :
  decoded_sealed data = (g, None) → gssm_Config g = [] →
  ∃ e,
    SealedSecretManagement_Validate
      (SealedSecretManagement_UnmarshalJSON p data).1 = Returned (Some e).
Proof.
  intros Hdec Hcfg.
  unfold config.SealedSecretManagement_UnmarshalJSON,
    config.SealedSecretManagement_Validate.
  rewrite Hdec, Hcfg.
  destruct (decide (gssm_Type g = model_SealedSecretManagementSealingKey))
    as [Hsk|Hsk].
  - rewrite unmarshal_config_empty. simpl.
    rewrite decide_True by done. by eexists.
  - destruct (decide (gssm_Type g = model_SealedSecretManagementGCPKMS))
      as [Hkms|Hkms].
    + rewrite unmarshal_config_empty. simpl.
      rewrite decide_False, decide_True by done. by eexists.
    + simpl. rewrite !decide_False by done. by eexists.
Qed.

(** X14.  [PipedAnalysisProvider.UnmarshalJSON] refuses a document whose type
    is none of Prometheus, Datadog and Stackdriver, with an error that names
    the provider. *)
Theorem PipedAnalysisProvider_UnmarshalJSON_unknown_type p data gp :
  decoded_analysis data = (gp, None) →
  gap_Type gp ∉ [model_AnalysisProviderPrometheus;
                 model_AnalysisProviderDatadog;
                 model_AnalysisProviderStackdriver] →
  (PipedAnalysisProvider_UnmarshalJSON p data).2
  = Some ("unsupported analysis provider type: " +:+ gap_Name gp).
Proof.
  intros Hdec Hunknown. unfold config.PipedAnalysisProvider_UnmarshalJSON.
  rewrite Hdec. rewrite !not_elem_of_cons in Hunknown.
  destruct Hunknown as (?&?&?&_). by rewrite !decide_False.
Qed.

(** Closes [type = T → is_Some c]: either [c] was just allocated or [T] is
    not the decoded type. *)
Ltac selected := first [intros _; by eexists | intros; congruence].

(** X15.  After a decoding without error, the type of a cloud provider is one
    of the four known ones and the configuration of that type is allocated
    (the four constants being distinct), so a reader that switches on the
    type can follow the pointer. *)
Theorem PipedCloudProvider_UnmarshalJSON_config_allocated p data :
  NoDup [model_CloudProviderKubernetes; model_CloudProviderTerraform;
         model_CloudProviderCloudRun; model_CloudProviderLambda] →
  (PipedCloudProvider_UnmarshalJSON p data).2 = None →
  let p' := (PipedCloudProvider_UnmarshalJSON p data).1 in
  cp_Type p' ∈ [model_CloudProviderKubernetes; model_CloudProviderTerraform;
                model_CloudProviderCloudRun; model_CloudProviderLambda]
  ∧ (cp_Type p' = model_CloudProviderKubernetes →
     is_Some (KubernetesConfig p'))
  ∧ (cp_Type p' = model_CloudProviderTerraform →
     is_Some (TerraformConfig p'))
  ∧ (cp_Type p' = model_CloudProviderCloudRun →
     is_Some (CloudRunConfig p'))
  ∧ (cp_Type p' = model_CloudProviderLambda → is_Some (LambdaConfig p')).
Proof using Type*.
  intros Hdistinct. cbv zeta.
  inversion_clear Hdistinct as [|? ? Hk Hdistinct1].
  inversion_clear Hdistinct1 as [|? ? Ht Hdistinct2].
  inversion_clear Hdistinct2 as [|? ? Hc _].
  rewrite !not_elem_of_cons in Hk. rewrite !not_elem_of_cons in Ht.
  rewrite !not_elem_of_cons in Hc.
  destruct Hk as (?&?&?&_), Ht as (?&?&_), Hc as (?&_).
  unfold config.PipedCloudProvider_UnmarshalJSON.
  destruct (decoded_cloud data) as [gp [e|]]; [discriminate|].
  destruct (decide (gcp_Type gp = model_CloudProviderKubernetes)) as [Ek|Nk].
  { destruct (unmarshal_config _ _) as [c err]. simpl. intros _.
    split; [rewrite Ek; repeat constructor|].
    split; [selected|]. split; [selected|]. split; selected. }
  destruct (decide (gcp_Type gp = model_CloudProviderTerraform)) as [Et|Nt].
  { destruct (unmarshal_config _ _) as [c err]. simpl. intros _.
    split; [rewrite Et; repeat constructor|].
    split; [selected|]. split; [selected|]. split; selected. }
  destruct (decide (gcp_Type gp = model_CloudProviderCloudRun)) as [Ec|Nc].
  { destruct (unmarshal_config _ _) as [c err]. simpl. intros _.
    split; [rewrite Ec; repeat constructor|].
    split; [selected|]. split; [selected|]. split; selected. }
  destruct (decide (gcp_Type gp = model_CloudProviderLambda)) as [El|Nl];
    [|discriminate].
  destruct (unmarshal_config _ _) as [c err]. simpl. intros _.
  split; [rewrite El; repeat constructor|].
  split; [selected|]. split; [selected|]. split; selected.
Qed.

(** X16.  [PipedCloudProvider.UnmarshalJSON] writes no configuration other
    than the one of the decoded type: whatever it returns, a configuration
    whose type is not the provider's type afterwards is the pointer the
    receiver held before the call. *)
Theorem PipedCloudProvider_UnmarshalJSON_other_configs p data :
  let p' := (PipedCloudProvider_UnmarshalJSON p data).1 in
  (cp_Type p' ≠ model_CloudProviderKubernetes →
   KubernetesConfig p' = KubernetesConfig p)
  ∧ (cp_Type p' ≠ model_CloudProviderTerraform →
     TerraformConfig p' = TerraformConfig p)
  ∧ (cp_Type p' ≠ model_CloudProviderCloudRun →
     CloudRunConfig p' = CloudRunConfig p)
  ∧ (cp_Type p' ≠ model_CloudProviderLambda →
     LambdaConfig p' = LambdaConfig p).
Proof.
  cbv zeta. unfold config.PipedCloudProvider_UnmarshalJSON.
  destruct (decoded_cloud data) as [gp [e|]]; [done|].
  destruct (decide (gcp_Type gp = model_CloudProviderKubernetes));
    [destruct (unmarshal_config _ _); simpl; by repeat split|].
  destruct (decide (gcp_Type gp = model_CloudProviderTerraform));
    [destruct (unmarshal_config _ _); simpl; by repeat split|].
  destruct (decide (gcp_Type gp = model_CloudProviderCloudRun));
    [destruct (unmarshal_config _ _); simpl; by repeat split|].
  destruct (decide (gcp_Type gp = model_CloudProviderLambda));
    [destruct (unmarshal_config _ _); simpl; by repeat split|].
  simpl. by repeat split.
Qed.

(** X17.  A kubernetes document named ["kubernetes-default"] without a
    [config] section, decoded into a fresh provider, is exactly
    [DefaultKubernetesCloudProvider]. *)
Theorem PipedCloudProvider_UnmarshalJSON_default data gp :
  decoded_cloud data = (gp, None) →
  gcp_Name gp = "kubernetes-default" →
  gcp_Type gp = model_CloudProviderKubernetes →
  gcp_Config gp = [] →
  PipedCloudProvider_UnmarshalJSON zero_PipedCloudProvider data
  = (DefaultKubernetesCloudProvider, None).
Proof.
  intros Hdec Hname Htype Hcfg.
  unfold config.PipedCloudProvider_UnmarshalJSON.
  rewrite Hdec, Hname, Htype, Hcfg. by rewrite decide_True.
Qed.

(** X18.  Once the document has been decoded into the generic struct, the
    [PullInterval] of an image provider is never zero, also when the type of
    the provider is refused. *)
Theorem PipedImageProvider_UnmarshalJSON_interval_not_zero p data gp :
  decoded_image data = (gp, None) →
  PullInterval (PipedImageProvider_UnmarshalJSON p data).1 ≠ 0%Z.
Proof.
  intros Hdec.
  rewrite (UnmarshalImage_PullInterval _ _ _ _ p data gp Hdec).
  case_decide; [by vm_compute | done].
Qed.

End piped_decoding.

Section piped_lookup.
Import config.

Context {CloudProviderType AnalysisProviderType : Type}.
Context {ImageProviderType SealedSecretManagementType : Type}.
Context `{!EqDecision CloudProviderType}.

Variable model_CloudProviderKubernetes : CloudProviderType.
Variable zero_CloudProviderType : CloudProviderType.
Variable zero_AnalysisProviderType : AnalysisProviderType.

Abbreviation PipedSpec :=
  (@PipedSpec CloudProviderType AnalysisProviderType ImageProviderType
     SealedSecretManagementType).
Abbreviation PipedCloudProvider := (@PipedCloudProvider CloudProviderType).
Abbreviation PipedAnalysisProvider :=
  (@PipedAnalysisProvider AnalysisProviderType).
Abbreviation PipedSpec_EnableDefaultKubernetesCloudProvider :=
  (config.PipedSpec_EnableDefaultKubernetesCloudProvider
     model_CloudProviderKubernetes).
Abbreviation PipedSpec_FindCloudProvider :=
  (config.PipedSpec_FindCloudProvider zero_CloudProviderType).
Abbreviation PipedSpec_GetAnalysisProvider :=
  (config.PipedSpec_GetAnalysisProvider zero_AnalysisProviderType).
Abbreviation DefaultKubernetesCloudProvider :=
  (config.DefaultKubernetesCloudProvider model_CloudProviderKubernetes).
Abbreviation zero_PipedCloudProvider :=
  (config.zero_PipedCloudProvider zero_CloudProviderType).
Abbreviation zero_PipedAnalysisProvider :=
  (config.zero_PipedAnalysisProvider zero_AnalysisProviderType).

Implicit Types (s : PipedSpec) (l : list PipedCloudProvider).
Implicit Types (cp : PipedCloudProvider) (name id : string).
Implicit Types (repos : list PipedRepository) (repo : PipedRepository).
Implicit Types (m : gmap string PipedRepository).

(** *** Cloud providers *)

Lemma has_cloud_provider_elem l name t :
  has_cloud_provider l name t = true
  ↔ ∃ cp, cp ∈ l ∧ cp_Name cp = name ∧ cp_Type cp = t.
Proof.
  induction l as [|cp l IH]; simpl.
  - split; [discriminate|]. intros (? & Hin & _). by apply elem_of_nil in Hin.
  - destruct (decide (cp_Name cp ≠ name)) as [Hn|Hn].
    + rewrite IH. split.
      * intros (q & Hin & Hq). exists q. split; [by right | done].
      * intros (q & Hin & Hname & Htype).
        apply elem_of_cons in Hin as [->|Hin]; [done|]. by exists q.
    + destruct (decide (cp_Type cp ≠ t)) as [Ht|Ht].
      * rewrite IH. split.
        -- intros (q & Hin & Hq). exists q. split; [by right | done].
        -- intros (q & Hin & Hname & Htype).
           apply elem_of_cons in Hin as [->|Hin]; [done|]. by exists q.
      * split; [|done]. intros _. exists cp.
        split; [left|]. split; by apply dec_stable.
Qed.

Lemma find_cloud_provider_app l l' name t :
  (find_cloud_provider zero_CloudProviderType l name t).2 = true →
  find_cloud_provider zero_CloudProviderType (l ++ l') name t
  = find_cloud_provider zero_CloudProviderType l name t.
Proof.
  induction l as [|cp l IH]; simpl; [discriminate|].
  by repeat case_decide.
Qed.

Lemma find_cloud_provider_miss l name t :
  (find_cloud_provider zero_CloudProviderType l name t).2 = false →
  find_cloud_provider zero_CloudProviderType l name t
  = (zero_PipedCloudProvider, false).
Proof.
  induction l as [|cp l IH]; simpl; [done|].
  by repeat case_decide.
Qed.

(** X19.  [HasCloudProvider(n, t)] is true exactly when some configured
    cloud provider has both the name [n] and the type [t]. *)
Theorem PipedSpec_HasCloudProvider_elem s name t :
  PipedSpec_HasCloudProvider s name t = true
  ↔ ∃ cp, cp ∈ CloudProviders s ∧ cp_Name cp = name ∧ cp_Type cp = t.
Proof.
  unfold config.PipedSpec_HasCloudProvider.
  apply has_cloud_provider_elem.
Qed.

(** X20.  [FindCloudProvider(n, t)] reports [found = false] exactly when no
    configured cloud provider has both the name and the type, and it then
    returns the zero value [PipedCloudProvider{}]. *)
Theorem PipedSpec_FindCloudProvider_miss s name t :
  ((PipedSpec_FindCloudProvider s name t).2 = false
   ↔ ∀ cp, cp ∈ CloudProviders s →
       ¬ (cp_Name cp = name ∧ cp_Type cp = t))
  ∧ ((PipedSpec_FindCloudProvider s name t).2 = false →
     (PipedSpec_FindCloudProvider s name t).1 = zero_PipedCloudProvider).
Proof.
  unfold config.PipedSpec_FindCloudProvider. split.
  - rewrite find_cloud_provider_found.
    rewrite <- not_true_iff_false, has_cloud_provider_elem. split.
    + intros Hnone cp Hin Hcp. apply Hnone. by exists cp.
    + intros Hall (cp & Hin & Hcp). by apply (Hall cp).
  - intros Hmiss. by rewrite find_cloud_provider_miss.
Qed.

(** X21.  After [EnableDefaultKubernetesCloudProvider], a kubernetes provider
    named ["kubernetes-default"] is configured exactly when the configuration
    had no provider of that name before, or had one of type kubernetes: a
    provider of another type that carries the name keeps the default from
    being added. *)
Theorem PipedSpec_EnableDefault_HasCloudProvider s :
  PipedSpec_HasCloudProvider
    (PipedSpec_EnableDefaultKubernetesCloudProvider s)
    "kubernetes-default" model_CloudProviderKubernetes = true
  ↔ (∀ cp, cp ∈ CloudProviders s → cp_Name cp ≠ "kubernetes-default")
    ∨ PipedSpec_HasCloudProvider s "kubernetes-default"
        model_CloudProviderKubernetes = true.
Proof.
  unfold config.PipedSpec_HasCloudProvider.
  rewrite EnableDefault_CloudProviders.
  destruct (has_default_name _ (CloudProviders s)) eqn:Hhas.
  - apply has_default_name_true in Hhas as (q & Hin & Hq). split; [auto|].
    intros [Hnone|?]; [|done]. by destruct (Hnone q Hin).
  - split.
    + intros _. left. intros cp Hin Hcp.
      assert (has_default_name model_CloudProviderKubernetes
                (CloudProviders s) = true); [|congruence].
      apply has_default_name_true. by exists cp.
    + intros _. apply has_cloud_provider_elem.
      exists DefaultKubernetesCloudProvider.
      split; [|done]. apply elem_of_app. right. left.
Qed.

(** X22.  [EnableDefaultKubernetesCloudProvider] does not disturb a lookup
    that succeeds: what [FindCloudProvider] found before, it finds
    afterwards. *)
Theorem PipedSpec_EnableDefault_FindCloudProvider s name t :
  (PipedSpec_FindCloudProvider s name t).2 = true →
  PipedSpec_FindCloudProvider
    (PipedSpec_EnableDefaultKubernetesCloudProvider s) name t
  = PipedSpec_FindCloudProvider s name t.
Proof.
  unfold config.PipedSpec_FindCloudProvider. intros Hfound.
  rewrite EnableDefault_CloudProviders.
  destruct (has_default_name _ (CloudProviders s)); [done|].
  by apply find_cloud_provider_app.
Qed.

(** *** Repositories *)

Lemma get_repository_found repos id :
  (get_repository repos id).2 = true
  ↔ ∃ repo, repo ∈ repos ∧ repo_RepoID repo = id.
Proof.
  induction repos as [|x repos IH]; simpl.
  - split; [discriminate|]. intros (? & Hin & _). by apply elem_of_nil in Hin.
  - destruct (decide (repo_RepoID x = id)) as [Hx|Hx].
    + split; [|done]. intros _. exists x. split; [left | done].
    + rewrite IH. split.
      * intros (q & Hin & Hq). exists q. split; [by right | done].
      * intros (q & Hin & Hq).
        apply elem_of_cons in Hin as [->|Hin]; [done|]. by exists q.
Qed.

Lemma get_repository_first repos id :
  (get_repository repos id).2 = true →
  ∃ repos1 repos2,
    repos = repos1 ++ (get_repository repos id).1 :: repos2
    ∧ repo_RepoID (get_repository repos id).1 = id
    ∧ ∀ q, q ∈ repos1 → repo_RepoID q ≠ id.
Proof.
  induction repos as [|x repos IH]; simpl; [discriminate|].
  destruct (decide (repo_RepoID x = id)) as [Hx|Hx].
  - intros _. exists [], repos. split; [done|]. split; [done|].
    intros q Hin. by apply elem_of_nil in Hin.
  - intros Hfound. destruct (IH Hfound) as (repos1 & repos2 & Hl & Hid & Hl1).
    exists (x :: repos1), repos2. split; [simpl; by rewrite <- Hl|].
    split; [done|].
    intros q Hin. apply elem_of_cons in Hin as [->|Hin]; [done|]. by apply Hl1.
Qed.

Lemma get_repository_miss repos id :
  (get_repository repos id).2 = false →
  get_repository repos id = (zero_PipedRepository, false).
Proof.
  induction repos as [|x repos IH]; simpl; [done|]. by case_decide.
Qed.

Lemma repository_map_loop_None repos m id :
  repository_map_loop repos m !! id = None
  ↔ m !! id = None ∧ ∀ q, q ∈ repos → repo_RepoID q ≠ id.
Proof.
  revert m. induction repos as [|x repos IH]; intros m; simpl.
  - split; [|by intros [? _]]. intros Hm. split; [done|].
    intros q Hin. by apply elem_of_nil in Hin.
  - rewrite IH, lookup_insert_None. split.
    + intros [[Hm Hx] Hrest]. split; [done|]. intros q Hin.
      apply elem_of_cons in Hin as [->|Hin]; [done | by apply Hrest].
    + intros [Hm Hall]. split; [split; [done|]|].
      * apply Hall. left.
      * intros q Hin. apply Hall. by right.
Qed.

Lemma repository_map_loop_Some repos m id repo :
  repository_map_loop repos m !! id = Some repo →
  (m !! id = Some repo ∧ ∀ q, q ∈ repos → repo_RepoID q ≠ id)
  ∨ ∃ repos1 repos2,
      repos = repos1 ++ repo :: repos2 ∧ repo_RepoID repo = id
      ∧ ∀ q, q ∈ repos2 → repo_RepoID q ≠ id.
Proof.
  revert m. induction repos as [|x repos IH]; intros m; simpl.
  - intros Hm. left. split; [done|]. intros q Hin. by apply elem_of_nil in Hin.
  - intros Hloop.
    destruct (IH _ Hloop)
      as [[Hins Hnone] | (repos1 & repos2 & -> & Hid & Hl2)].
    + destruct (decide (repo_RepoID x = id)) as [Hx|Hx].
      * rewrite Hx, lookup_insert_eq in Hins. injection Hins as ->.
        right. by exists [], repos.
      * rewrite lookup_insert_ne in Hins by done. left. split; [done|].
        intros q Hin.
        apply elem_of_cons in Hin as [->|Hin]; [done | by apply Hnone].
    + right. by exists (x :: repos1), repos2.
Qed.

Lemma repository_map_loop_size repos m :
  size (repository_map_loop repos m) ≤ size m + length repos.
Proof.
  revert m. induction repos as [|x repos IH]; intros m; simpl; [lia|].
  etrans; [apply IH|]. rewrite map_size_insert.
  destruct (m !! repo_RepoID x); simpl; lia.
Qed.

Lemma repository_map_loop_size_NoDup repos m :
  NoDup (repo_RepoID <$> repos) →
  (∀ q, q ∈ repos → m !! repo_RepoID q = None) →
  size (repository_map_loop repos m) = size m + length repos.
Proof.
  revert m. induction repos as [|x repos IH]; intros m; simpl; [lia|].
  intros Hnd Hfresh. inversion_clear Hnd as [|? ? Hx Hrest].
  rewrite IH; [|done|].
  - rewrite map_size_insert_None; [lia|]. apply Hfresh. left.
  - intros q Hin. rewrite lookup_insert_ne; [apply Hfresh; by right|].
    intros Heq. apply Hx. rewrite Heq. by apply list_elem_of_fmap_2.
Qed.

(** Identifiers without duplicates name at most one repository. *)
Lemma NoDup_RepoID_eq repos x y :
  NoDup (repo_RepoID <$> repos) → x ∈ repos → y ∈ repos →
  repo_RepoID x = repo_RepoID y → x = y.
Proof.
  induction repos as [|z repos IH]; simpl.
  - intros _ Hin. by apply elem_of_nil in Hin.
  - intros Hnd Hx Hy Heq. inversion_clear Hnd as [|? ? Hz Hrest].
    apply elem_of_cons in Hx as [->|Hx]; apply elem_of_cons in Hy as [->|Hy].
    + done.
    + destruct Hz. rewrite Heq. by apply list_elem_of_fmap_2.
    + destruct Hz. rewrite <- Heq. by apply list_elem_of_fmap_2.
    + by apply IH.
Qed.

(** X23.  [GetRepository(id)] reports [found = true] exactly when some
    configured repository has the identifier [id]; it then returns the first
    such repository, and otherwise the zero value [PipedRepository{}]. *)
Theorem PipedSpec_GetRepository_first s id :
  ((PipedSpec_GetRepository s id).2 = true
   ↔ ∃ repo, repo ∈ Repositories s ∧ repo_RepoID repo = id)
  ∧ ((PipedSpec_GetRepository s id).2 = true →
     ∃ repos1 repos2,
       Repositories s = repos1 ++ (PipedSpec_GetRepository s id).1 :: repos2
       ∧ repo_RepoID (PipedSpec_GetRepository s id).1 = id
       ∧ ∀ q, q ∈ repos1 → repo_RepoID q ≠ id)
  ∧ ((PipedSpec_GetRepository s id).2 = false →
     (PipedSpec_GetRepository s id).1 = zero_PipedRepository).
Proof.
  unfold PipedSpec_GetRepository. split; [apply get_repository_found|].
  split; [apply get_repository_first|].
  intros Hmiss. by rewrite get_repository_miss.
Qed.

(** X24.  [GetRepositoryMap()] has no entry for [id] exactly when no
    configured repository has that identifier; an entry it has is the last
    configured repository with the identifier, a later repository having
    replaced an earlier one with the same identifier. *)
Theorem PipedSpec_GetRepositoryMap_last s id :
  (PipedSpec_GetRepositoryMap s !! id = None
   ↔ ∀ q, q ∈ Repositories s → repo_RepoID q ≠ id)
  ∧ (∀ repo,
       PipedSpec_GetRepositoryMap s !! id = Some repo →
       ∃ repos1 repos2,
         Repositories s = repos1 ++ repo :: repos2 ∧ repo_RepoID repo = id
         ∧ ∀ q, q ∈ repos2 → repo_RepoID q ≠ id).
Proof.
  unfold PipedSpec_GetRepositoryMap. split.
  - rewrite repository_map_loop_None, lookup_empty.
    split; [by intros [_ ?] | by split].
  - intros repo Hrepo.
    destruct (repository_map_loop_Some _ _ _ _ Hrepo) as [[Hempty _]|?];
      [|done].
    by rewrite lookup_empty in Hempty.
Qed.

(** X25.  [GetRepositoryMap()] and [GetRepository(id)] know the same
    identifiers, and when no two configured repositories share an identifier
    they give the same repository for each. *)
Theorem PipedSpec_GetRepositoryMap_GetRepository s id :
  (is_Some (PipedSpec_GetRepositoryMap s !! id)
   ↔ (PipedSpec_GetRepository s id).2 = true)
  ∧ (NoDup (repo_RepoID <$> Repositories s) →
     ∀ repo,
       PipedSpec_GetRepositoryMap s !! id = Some repo
       ↔ PipedSpec_GetRepository s id = (repo, true)).
Proof.
  unfold PipedSpec_GetRepositoryMap, PipedSpec_GetRepository.
  assert (Hsome : ∀ repo,
    repository_map_loop (Repositories s) ∅ !! id = Some repo →
    repo ∈ Repositories s ∧ repo_RepoID repo = id).
  { intros repo Hrepo.
    destruct (repository_map_loop_Some _ _ _ _ Hrepo)
      as [[Hempty _]|(repos1 & repos2 & Hl & Hid & _)].
    - by rewrite lookup_empty in Hempty.
    - split; [|done]. rewrite Hl. apply elem_of_app. right. left. }
  assert (Hknown :
    is_Some (repository_map_loop (Repositories s) ∅ !! id)
    ↔ (get_repository (Repositories s) id).2 = true).
  { rewrite get_repository_found. split.
    - intros [repo Hrepo]. exists repo. by apply Hsome.
    - intros (repo & Hin & Hid).
      destruct (repository_map_loop (Repositories s) ∅ !! id) eqn:Hm;
        [by eexists|].
      apply repository_map_loop_None in Hm as [_ Hnone].
      by destruct (Hnone repo Hin). }
  split; [exact Hknown|].
  intros Hnd repo. split.
  - intros Hrepo. destruct (Hsome repo Hrepo) as [Hin Hid].
    assert (Hfound : (get_repository (Repositories s) id).2 = true)
      by (apply Hknown; by eexists).
    destruct (get_repository_first _ _ Hfound)
      as (repos1 & repos2 & Hl & Hid' & _).
    rewrite (surjective_pairing (get_repository (Repositories s) id)).
    rewrite Hfound. f_equal.
    apply (NoDup_RepoID_eq (Repositories s)); [done| |done|congruence].
    rewrite Hl at 2. apply elem_of_app. right. left.
  - intros Hget.
    assert (Hfound : (get_repository (Repositories s) id).2 = true)
      by (by rewrite Hget).
    destruct (get_repository_first _ _ Hfound)
      as (repos1 & repos2 & Hl & Hid & _).
    rewrite Hget in Hl, Hid. simpl in Hl, Hid.
    apply Hknown in Hfound as [repo' Hrepo']. rewrite Hrepo'. f_equal.
    destruct (Hsome repo' Hrepo') as [Hin' Hid'].
    apply (NoDup_RepoID_eq (Repositories s)); [done|done| |congruence].
    rewrite Hl. apply elem_of_app. right. left.
Qed.

(** X26.  [GetRepositoryMap()] never has more entries than there are
    configured repositories, and has one entry for each of them when no two
    repositories share an identifier. *)
Theorem PipedSpec_GetRepositoryMap_size s :
  size (PipedSpec_GetRepositoryMap s) ≤ length (Repositories s)
  ∧ (NoDup (repo_RepoID <$> Repositories s) →
     size (PipedSpec_GetRepositoryMap s) = length (Repositories s)).
Proof.
  unfold PipedSpec_GetRepositoryMap. split.
  - etrans; [apply repository_map_loop_size|].
    by rewrite map_size_empty.
  - intros Hnd. rewrite repository_map_loop_size_NoDup; [|done|].
    + by rewrite map_size_empty.
    + intros q _. apply lookup_empty.
Qed.

(** *** Analysis providers *)

Lemma get_analysis_provider_first (ps : list PipedAnalysisProvider) name :
  (get_analysis_provider zero_AnalysisProviderType ps name).2 = true →
  ∃ ps1 ps2,
    ps = ps1
           ++ (get_analysis_provider zero_AnalysisProviderType ps name).1
              :: ps2
    ∧ ap_Name (get_analysis_provider zero_AnalysisProviderType ps name).1
      = name
    ∧ ∀ q, q ∈ ps1 → ap_Name q ≠ name.
Proof.
  induction ps as [|x ps IH]; simpl; [discriminate|].
  destruct (decide (ap_Name x = name)) as [Hx|Hx].
  - intros _. exists [], ps. split; [done|]. split; [done|].
    intros q Hin. by apply elem_of_nil in Hin.
  - intros Hfound. destruct (IH Hfound) as (ps1 & ps2 & Hl & Hid & Hl1).
    exists (x :: ps1), ps2. split; [simpl; by rewrite <- Hl|]. split; [done|].
    intros q Hin. apply elem_of_cons in Hin as [->|Hin]; [done|]. by apply Hl1.
Qed.

Lemma get_analysis_provider_miss (ps : list PipedAnalysisProvider) name :
  (get_analysis_provider zero_AnalysisProviderType ps name).2 = false →
  get_analysis_provider zero_AnalysisProviderType ps name
  = (zero_PipedAnalysisProvider, false)
  ∧ ∀ q, q ∈ ps → ap_Name q ≠ name.
Proof.
  induction ps as [|x ps IH]; simpl.
  - intros _. split; [done|]. intros q Hin. by apply elem_of_nil in Hin.
  - destruct (decide (ap_Name x = name)) as [Hx|Hx]; [discriminate|].
    intros Hmiss. destruct (IH Hmiss) as [Hzero Hnone]. split; [done|].
    intros q Hin. apply elem_of_cons in Hin as [->|Hin]; [done|].
    by apply Hnone.
Qed.

(** X27.  [GetAnalysisProvider(name)] returns the first configured analysis
    provider with the name, whatever its type; when it reports
    [found = false] no provider has the name and the zero value
    [PipedAnalysisProvider{}] is returned. *)
Theorem PipedSpec_GetAnalysisProvider_first s name :
  ((PipedSpec_GetAnalysisProvider s name).2 = true →
   ∃ ps1 ps2,
     AnalysisProviders s
     = ps1 ++ (PipedSpec_GetAnalysisProvider s name).1 :: ps2
     ∧ ap_Name (PipedSpec_GetAnalysisProvider s name).1 = name
     ∧ ∀ q, q ∈ ps1 → ap_Name q ≠ name)
  ∧ ((PipedSpec_GetAnalysisProvider s name).2 = false →
     (PipedSpec_GetAnalysisProvider s name).1 = zero_PipedAnalysisProvider
     ∧ ∀ q, q ∈ AnalysisProviders s → ap_Name q ≠ name).
Proof.
  unfold config.PipedSpec_GetAnalysisProvider. split.
  - apply get_analysis_provider_first.
  - intros Hmiss. destruct (get_analysis_provider_miss _ _ Hmiss) as [-> ?].
    by split.
Qed.

End piped_lookup.

(** * Further instances on the sample values *)

(** ["APPROVAL"] is free in [sample.wait_registry]. *)
Lemma registry_Register_Executor_round_trip_witness :
  (executor.registry_Register sample.stage_String sample.wait_registry
     "APPROVAL" (Some sample.approval_factory)).2 = Returned None
  ∧ (executor.registry_Executor sample.stage_String
       (executor.registry_Register sample.stage_String sample.wait_registry
          "APPROVAL" (Some sample.approval_factory)).1 "APPROVAL" 7).2
    = Returned (Some 8, None).
Proof.
  apply (registry_Register_Executor_round_trip sample.stage_String
           sample.wait_registry sample.wait_factories "APPROVAL"
           sample.approval_factory 7).
  - reflexivity.
  - vm_compute. reflexivity.
Defined.

(** A nil factory for ["APPROVAL"]. *)
Lemma registry_Register_nil_factory_witness :
  (executor.registry_Register sample.stage_String sample.wait_registry
     "APPROVAL" None).2 = Returned None
  ∧ (executor.registry_Executor sample.stage_String
       (executor.registry_Register sample.stage_String sample.wait_registry
          "APPROVAL" None).1 "APPROVAL" 7).2
    = Panicked panic_nil_deref.
Proof.
  apply (registry_Register_nil_factory sample.stage_String
           sample.wait_registry sample.wait_factories "APPROVAL" 7).
  - reflexivity.
  - vm_compute. reflexivity.
Defined.

(** ["APPROVAL"] and ["ANALYSIS"] registered in both orders. *)
Lemma registry_Register_two_kinds_witness :
  let register := executor.registry_Register sample.stage_String in
  let r12 := (register
                (register sample.wait_registry "APPROVAL"
                   (Some sample.approval_factory)).1
                "ANALYSIS" (Some sample.analysis_factory)).1 in
  let r21 := (register
                (register sample.wait_registry "ANALYSIS"
                   (Some sample.analysis_factory)).1
                "APPROVAL" (Some sample.approval_factory)).1 in
  (executor.registry_Executor sample.stage_String r12 "APPROVAL" 7).2
    = Returned (Some 8, None)
  ∧ (executor.registry_Executor sample.stage_String r12 "ANALYSIS" 7).2
    = Returned (Some 14, None)
  ∧ r12 = r21.
Proof.
  apply (registry_Register_two_kinds sample.stage_String
           sample.wait_registry sample.wait_factories "APPROVAL" "ANALYSIS"
           sample.approval_factory sample.analysis_factory 7).
  - reflexivity.
  - vm_compute. reflexivity.
  - vm_compute. reflexivity.
  - discriminate.
Defined.

(** A negative interval on a configuration that [Validate] accepts. *)
Lemma PipedSpec_Validate_interval_not_negative_witness :
  (sample.Validate (sample.piped_spec (-5) [] None)).2 = Returned None
  ∧ (0 ≤ config.SyncInterval
           (sample.Validate (sample.piped_spec (-5) [] None)).1)%Z.
Proof.
  assert (Hok : (sample.Validate (sample.piped_spec (-5) [] None)).2
                = Returned None) by reflexivity.
  split; [exact Hok|].
  exact (PipedSpec_Validate_interval_not_negative sample.SealingKey
           sample.GCPKMS id (sample.piped_spec (-5) [] None) Hok).
Defined.

(** A negative interval and a sealing key without its public key. *)
Lemma PipedSpec_Validate_error_after_write_witness :
  sample.Validate
    (sample.piped_spec (-5) [] (Some sample.sealing_key_without_public))
  = (sample.piped_spec 60000000000 []
       (Some sample.sealing_key_without_public),
     Returned (Some "publicKeyFile must be set")).
Proof.
  refine (proj1 (PipedSpec_Validate_error_after_write sample.SealingKey
                   sample.GCPKMS id
                   (sample.piped_spec (-5) []
                      (Some sample.sealing_key_without_public))
                   sample.sealing_key_without_public
                   "publicKeyFile must be set" _ _ _) _).
  - reflexivity.
  - reflexivity.
  - reflexivity.
  - repeat split; discriminate.
Defined.

(** A sealed-secret document of type ["VAULT"]. *)
Lemma SealedSecretManagement_UnmarshalJSON_unknown_type_witness :
  sample.UnmarshalSealed sample.vault_sealed_document
    sample.no_sealed_secret []
  = (config.mkSealedSecretManagement "VAULT" None None,
     Some "unsupported sealed secret management type: VAULT").
Proof.
  refine (@SealedSecretManagement_UnmarshalJSON_unknown_type string _
            sample.SealingKey sample.GCPKMS id ""
            sample.vault_sealed_document sample.empty_document
            sample.empty_document sample.no_sealed_secret []
            (config.mkGenericSealedSecretManagement "VAULT" [])
            eq_refl _ _); discriminate.
Defined.

(** A sealing-key document without [config]: it decodes, [Validate] returns,
    and what it returns is an error. *)
Lemma SealedSecretManagement_decoded_Validate_returns_witness :
  (sample.UnmarshalSealed sample.sealing_key_document
     sample.no_sealed_secret []).2 = None
  ∧ ∃ res,
      sample.ValidateSealed
        (sample.UnmarshalSealed sample.sealing_key_document
           sample.no_sealed_secret []).1 = Returned res.
Proof.
  split; [reflexivity|].
  refine (@SealedSecretManagement_decoded_Validate_returns string _
            sample.SealingKey sample.GCPKMS id ""
            sample.sealing_key_document sample.empty_document
            sample.empty_document sample.no_sealed_secret [] _).
  reflexivity.
Defined.

Lemma SealedSecretManagement_without_config_invalid_witness :
  ∃ e,
    sample.ValidateSealed
      (sample.UnmarshalSealed sample.sealing_key_document
         sample.no_sealed_secret []).1 = Returned (Some e).
Proof.
  refine (@SealedSecretManagement_without_config_invalid string _
            sample.SealingKey sample.GCPKMS id ""
            sample.sealing_key_document sample.empty_document
            sample.empty_document sample.no_sealed_secret []
            (config.mkGenericSealedSecretManagement "SEALING_KEY" [])
            eq_refl eq_refl).
Defined.

(** An analysis-provider document of type ["NEWRELIC"]. *)
Lemma PipedAnalysisProvider_UnmarshalJSON_unknown_type_witness :
  (sample.UnmarshalAnalysis sample.newrelic_analysis_document
     sample.no_analysis_provider []).2
  = Some "unsupported analysis provider type: nr".
Proof.
  refine (@PipedAnalysisProvider_UnmarshalJSON_unknown_type string _
            sample.Prometheus sample.Datadog sample.Stackdriver ""
            sample.newrelic_analysis_document sample.empty_document
            sample.empty_document sample.empty_document
            sample.no_analysis_provider []
            (config.mkGenericPipedAnalysisProvider "nr" "NEWRELIC" [])
            eq_refl _).
  intros Hin.
  repeat (apply elem_of_cons in Hin as [Heq|Hin];
          [vm_compute in Heq; discriminate Heq|]).
  by apply elem_of_nil in Hin.
Defined.

(** The four sample types are distinct and the default document decodes. *)
Lemma PipedCloudProvider_UnmarshalJSON_config_allocated_witness :
  is_Some (config.KubernetesConfig
             (sample.UnmarshalCloud sample.default_cloud_document
                sample.no_cloud_provider []).1).
Proof.
  assert (Hdistinct : NoDup [sample.Kubernetes; sample.Terraform;
                             sample.CloudRun; sample.Lambda]).
  { repeat (constructor; [intros Hin;
      repeat (apply elem_of_cons in Hin as [Heq|Hin]; [discriminate Heq|]);
      by apply elem_of_nil in Hin|]). constructor. }
  assert (Hok : (sample.UnmarshalCloud sample.default_cloud_document
                   sample.no_cloud_provider []).2 = None)
    by (vm_compute; reflexivity).
  destruct (@PipedCloudProvider_UnmarshalJSON_config_allocated string _
              sample.Kubernetes sample.Terraform sample.CloudRun sample.Lambda
              "" sample.default_cloud_document sample.empty_document
              sample.empty_document sample.empty_document
              sample.empty_document sample.no_cloud_provider [] Hdistinct
              Hok) as (_ & Hk & _).
  apply Hk. vm_compute. reflexivity.
Defined.

(** The default document decodes into the default provider. *)
Lemma PipedCloudProvider_UnmarshalJSON_default_witness :
  sample.UnmarshalCloud sample.default_cloud_document
    sample.no_cloud_provider []
  = (sample.default_provider, None).
Proof.
  exact (@PipedCloudProvider_UnmarshalJSON_default string _
           sample.Kubernetes sample.Terraform sample.CloudRun sample.Lambda
           "" sample.default_cloud_document sample.empty_document
           sample.empty_document sample.empty_document sample.empty_document
           []
           (config.mkGenericPipedCloudProvider "kubernetes-default"
              "KUBERNETES" [])
           eq_refl eq_refl eq_refl eq_refl).
Defined.

(** The interval of a refused ["QUAY"] document is kept and is not zero. *)
Lemma PipedImageProvider_UnmarshalJSON_interval_not_zero_witness :
  config.PullInterval
    (sample.UnmarshalImage sample.quay_image_document
       sample.no_image_provider []).1 ≠ 0%Z.
Proof.
  exact (@PipedImageProvider_UnmarshalJSON_interval_not_zero string _
           sample.Dockerhub sample.GCR sample.ECR ""
           sample.quay_image_document sample.empty_document
           sample.empty_document sample.empty_document
           sample.no_image_provider []
           (config.mkGenericPipedImageProvider "quay" "QUAY"
              (30 * config.time_Second)%Z [])
           eq_refl).
Defined.

(** The terraform provider is still found once the default is added. *)
Lemma PipedSpec_EnableDefault_FindCloudProvider_witness :
  let s := sample.piped_spec 0 [sample.terraform_provider] None in
  config.PipedSpec_FindCloudProvider ""
    (config.PipedSpec_EnableDefaultKubernetesCloudProvider
       sample.Kubernetes s)
    "terraform-dev" sample.Terraform
  = (sample.terraform_provider, true).
Proof.
  intros s.
  rewrite (PipedSpec_EnableDefault_FindCloudProvider sample.Kubernetes ""
             s "terraform-dev" sample.Terraform); reflexivity.
Defined.

(** Two repositories with distinct identifiers: the map and the search give
    the same repository for ["infra"]. *)
Lemma PipedSpec_GetRepositoryMap_GetRepository_witness :
  config.PipedSpec_GetRepositoryMap sample.piped_spec_with_repositories
    !! "infra" = Some sample.infra_repository.
Proof.
  assert (Hdistinct : NoDup (config.repo_RepoID <$>
            config.Repositories sample.piped_spec_with_repositories)).
  { repeat (constructor; [intros Hin;
      repeat (apply elem_of_cons in Hin as [Heq|Hin]; [discriminate Heq|]);
      by apply elem_of_nil in Hin|]). constructor. }
  apply (proj2 (PipedSpec_GetRepositoryMap_GetRepository
                  sample.piped_spec_with_repositories "infra") Hdistinct).
  reflexivity.
Defined.
